(** * Behavior scorecard: the Power BI scoring script and the Streamlit dashboard

    A shallow embedding of [Powerbi_predict.py] (the scoring script that the
    BI tool calls) and of [app.py] (the dashboard), and the properties of the
    score transform, the risk labels, the start-up check, the column guard and
    the scoring pass.

    Numbers.  Python floats and NumPy float64 values are modelled by
    [np_float]: a real number or one of the IEEE special values (the two
    infinities and NaN).  Finite arithmetic is exact arithmetic on [R]:
    rounding and signed zeros are not modelled.  The special values are kept
    because the code reaches them: [np.log 0] is minus infinity, the mean of
    an empty column is NaN, and comparisons with NaN are false.

    Since rounding is left out, the theorems about scores are stated so that
    they also hold of the rounded values: order that is not strict, bounds
    and thresholds with a margin, tolerances, and exact values only where
    the floating-point computation is exact too. *)

From Stdlib Require Import Reals Lra Lia ZArith List String.
From stdpp Require Import base option gmap strings.

Import ListNotations.
Open Scope string_scope.

(** ** Exceptions and floating-point values *)

Inductive exn : Type :=
| ZeroDivisionError
| ValueError
| TypeError
| UnpicklingError
| ReferenceError
| KeyError (key : string)
| FileNotFoundError (msg : string).

Inductive np_float : Type :=
| Finite (r : R)
| PosInf
| NegInf
| NaN.

(** A computation that returns or raises. *)
Definition result (A : Type) : Type := exn + A.

Definition raise {A} (e : exn) : result A := inl e.
Definition ok {A} (a : A) : result A := inr a.

Definition rbind {A B} (m : result A) (f : A -> result B) : result B :=
  match m with
  | inl e => inl e
  | inr a => f a
  end.

Declare Scope result_scope.
Delimit Scope result_scope with result.
Notation "'let!' x ':=' m 'in' k" := (rbind m (fun x => k))
  (at level 10, x name, m at level 100, k at level 200) : result_scope.

Fixpoint mapM {A B} (f : A -> result B) (l : list A) : result (list B) :=
  match l with
  | [] => ok []
  | x :: l' =>
      rbind (f x) (fun y => rbind (mapM f l') (fun ys => ok (y :: ys)))
  end.

Module Float.
Open Scope R_scope.

Definition neg (x : np_float) : np_float :=
  match x with
  | Finite a => Finite (- a)
  | PosInf => NegInf
  | NegInf => PosInf
  | NaN => NaN
  end.

Definition add (x y : np_float) : np_float :=
  match x, y with
  | NaN, _ | _, NaN => NaN
  | Finite a, Finite b => Finite (a + b)
  | PosInf, NegInf | NegInf, PosInf => NaN
  | PosInf, _ | _, PosInf => PosInf
  | NegInf, _ | _, NegInf => NegInf
  end.

Definition sub (x y : np_float) : np_float := add x (neg y).

(** An infinity times a finite factor: the sign of the factor decides, and
    zero times infinity is NaN. *)
Definition scale_inf (a : R) (pos : bool) : np_float :=
  if Rlt_dec 0 a then (if pos then PosInf else NegInf)
  else if Rlt_dec a 0 then (if pos then NegInf else PosInf)
  else NaN.

Definition mul (x y : np_float) : np_float :=
  match x, y with
  | NaN, _ | _, NaN => NaN
  | Finite a, Finite b => Finite (a * b)
  | Finite a, PosInf | PosInf, Finite a => scale_inf a true
  | Finite a, NegInf | NegInf, Finite a => scale_inf a false
  | PosInf, PosInf | NegInf, NegInf => PosInf
  | PosInf, NegInf | NegInf, PosInf => NegInf
  end.

(** Comparisons; every comparison with NaN is false. *)
Definition ltb (x y : np_float) : bool :=
  match x, y with
  | NaN, _ | _, NaN => false
  | Finite a, Finite b => if Rlt_dec a b then true else false
  | NegInf, NegInf | PosInf, _ => false
  | NegInf, _ => true
  | Finite _, PosInf => true
  | Finite _, NegInf => false
  end.

Definition gtb (x y : np_float) : bool := ltb y x.

Definition geb (x y : np_float) : bool :=
  match x, y with
  | NaN, _ | _, NaN => false
  | Finite a, Finite b => if Rle_dec b a then true else false
  | PosInf, _ | _, NegInf => true
  | _, _ => false
  end.

(** [x / y] on Python floats: a zero divisor raises. *)
Definition truediv (x y : np_float) : result np_float :=
  match x, y with
  | NaN, Finite b => if Req_dec_T b 0 then raise ZeroDivisionError else ok NaN
  | NaN, _ | _, NaN => ok NaN
  | Finite a, Finite b =>
      if Req_dec_T b 0 then raise ZeroDivisionError else ok (Finite (a / b))
  | Finite _, _ => ok (Finite 0)
  | PosInf, Finite b =>
      if Req_dec_T b 0 then raise ZeroDivisionError
      else ok (scale_inf b true)
  | NegInf, Finite b =>
      if Req_dec_T b 0 then raise ZeroDivisionError
      else ok (scale_inf b false)
  | _, _ => ok NaN
  end.

(** [math.log]: a domain error for arguments that are not positive. *)
Definition math_log (x : np_float) : result np_float :=
  match x with
  | Finite a => if Rlt_dec 0 a then ok (Finite (ln a)) else raise ValueError
  | PosInf => ok PosInf
  | NegInf => raise ValueError
  | NaN => ok NaN
  end.

(** [np.log]: no exception; zero gives minus infinity, a negative argument
    gives NaN. *)
Definition np_log (x : np_float) : np_float :=
  match x with
  | Finite a =>
      if Rlt_dec 0 a then Finite (ln a)
      else if Req_dec_T a 0 then NegInf
      else NaN
  | PosInf => PosInf
  | NegInf => NaN
  | NaN => NaN
  end.

(** The builtins [min(a, b)] and [max(a, b)] on two arguments: the first
    argument is kept unless the second compares strictly below (above). *)
Definition py_min (a b : np_float) : np_float := if ltb b a then b else a.
Definition py_max (a b : np_float) : np_float := if gtb b a then b else a.
End Float.

(** ** The BI script: constants and score transform *)

Module PowerBI.
Open Scope R_scope.
Import Float.

Definition MODEL_FILE : string := "behavior_model.pkl".
Definition SCALER_FILE : string := "scaler.pkl".

Definition SCORE_REF : R := 600.
Definition PDO : R := 20.
Definition ODDS : R := 20.

Definition B : R := PDO / ln 2.
Definition A : R := SCORE_REF + B * ln ODDS.

(** [pd = max(0.001, min(0.999, pd))] *)
Definition clamp (pd : np_float) : np_float :=
  py_max (Finite 0.001) (py_min (Finite 0.999) pd).

(** [odds = pd / (1 - pd)] after the clamp. *)
Definition odds_of (pd : np_float) : result np_float :=
  let pd := clamp pd in
  truediv pd (sub (Finite 1) pd).

Definition compute_score (pd : np_float) : result np_float :=
  (let! odds := odds_of pd in
   let! l := math_log odds in
   ok (sub (Finite A) (mul (Finite B) l)))%result.

(** [lambda s: "Low" if s >= 700 else ("Medium" if s >= 600 else "High")] *)
Definition risk_label (s : np_float) : string :=
  if geb s (Finite 700) then "Low"
  else if geb s (Finite 600) then "Medium"
  else "High".
End PowerBI.

(** ** The dashboard: constants and score transform *)

Module Dashboard.
Open Scope R_scope.
Import Float.

Definition A : R := 686.4385618977473.
Definition B : R := 28.85390081777927.

(** [pd_value / (1 - pd_value)], the argument of the logarithm. *)
Definition odds_of (pd_value : np_float) : result np_float :=
  truediv pd_value (sub (Finite 1) pd_value).

Definition calculate_behavior_score (pd_value : np_float) : result np_float :=
  (let! odds := odds_of pd_value in
   ok (sub (Finite A) (mul (Finite B) (np_log odds))))%result.

Definition risk_category (score : np_float) : string :=
  if ltb score (Finite 580) then "High Risk"
  else if ltb score (Finite 700) then "Medium Risk"
  else "Low Risk".

(** [pd_pred = max(min(pd_pred, 0.99), 0.01)] in the sidebar predictor. *)
Definition sidebar_clamp (pd_pred : np_float) : np_float :=
  py_max (py_min pd_pred (Finite 0.99)) (Finite 0.01).
End Dashboard.

(** ** Tables

    A [DataFrame] is a row count (the length of its index) and its columns
    in order, each with its name.  A column is typed as pandas types it:
    [float64], [int64] or [object] (here: strings).  Column names are unique
    in the tables that [read_csv] and the BI tool produce; lookup and
    assignment act on the first column of a name. *)

Inductive cell : Type :=
| CFloat (x : np_float)
| CInt (z : Z)
| CStr (s : string).

Inductive column : Type :=
| Float64 (l : list np_float)
| Int64 (l : list Z)
| Object (l : list string).

Record DataFrame : Type := mkDF {
  nrows : nat;
  cols : list (string * column)
}.

Definition column_cells (c : column) : list cell :=
  match c with
  | Float64 l => map CFloat l
  | Int64 l => map CInt l
  | Object l => map CStr l
  end.

Definition column_length (c : column) : nat := length (column_cells c).

(** [df.columns] *)
Definition columns (df : DataFrame) : list string := map fst (cols df).

Fixpoint assoc_get (name : string) (cs : list (string * column))
  : option column :=
  match cs with
  | [] => None
  | (n, c) :: cs' => if String.eqb n name then Some c else assoc_get name cs'
  end.

(** Assignment replaces the column in place when the name exists and appends
    a new last column otherwise. *)
Fixpoint assoc_set (name : string) (c : column) (cs : list (string * column))
  : list (string * column) :=
  match cs with
  | [] => [(name, c)]
  | (n, c0) :: cs' =>
      if String.eqb n name then (n, c) :: cs'
      else (n, c0) :: assoc_set name c cs'
  end.

(** [df[name]] *)
Definition getitem (df : DataFrame) (name : string) : result column :=
  match assoc_get name (cols df) with
  | Some c => ok c
  | None => raise (KeyError name)
  end.

(** [df[name] = series], for a series on the frame's own index: the values
    are aligned on the index and stored. *)
Definition setitem_series (df : DataFrame) (name : string) (c : column)
  : DataFrame :=
  mkDF (nrows df) (assoc_set name c (cols df)).

(** [df[name] = values], for a list or an array: the length must be the
    length of the index.  (The case of pandas in which a frame without rows
    takes over the length of the assigned values is not modelled.) *)
Definition setitem_array (df : DataFrame) (name : string) (c : column)
  : result DataFrame :=
  if Nat.eqb (column_length c) (nrows df)
  then ok (setitem_series df name c)
  else raise ValueError.

(** [df.values]: the rows of the table. *)
Definition row (df : DataFrame) (i : nat) : list cell :=
  map (fun nc => nth i (column_cells (snd nc)) (CFloat NaN)) (cols df).

Definition values (df : DataFrame) : list (list cell) :=
  map (row df) (seq 0 (nrows df)).

(** A cell used as a number: strings raise [TypeError] in arithmetic. *)
Definition cell_float (c : cell) : result np_float :=
  match c with
  | CFloat x => ok x
  | CInt z => ok (Finite (IZR z))
  | CStr _ => raise TypeError
  end.

Definition series_floats (c : column) : result (list np_float) :=
  mapM cell_float (column_cells c).

Definition is_nan (x : np_float) : bool :=
  match x with NaN => true | _ => false end.

(** [Series.mean()]: NaN entries are skipped; the mean of nothing is NaN. *)
Definition nanmean (l : list np_float) : np_float :=
  let xs := List.filter (fun x => negb (is_nan x)) l in
  match xs with
  | [] => NaN
  | _ :: _ =>
      match fold_left Float.add xs (Finite 0) with
      | Finite a => Finite (a / INR (length xs))
      | other => other
      end
  end.

Definition series_mean (c : column) : result np_float :=
  rbind (series_floats c) (fun l => ok (nanmean l)).

(** ** The BI script: start-up and the scoring pass *)

(** The fitted objects are opaque: a classifier with [predict_proba], which
    returns the two class probabilities of each row, and a scaler with
    [transform].  Either may raise. *)
Record Classifier : Type := {
  predict_proba : list (list cell) -> result (list (np_float * np_float))
}.

Record Scaler : Type := {
  transform : list (list cell) -> result (list (list cell))
}.

(** The module's globals after a successful start-up. *)
Record Env : Type := {
  _model : Classifier;
  _scaler : option Scaler
}.

(** The heap of tables: Python passes tables by reference, and assignment to
    a column mutates the table in place. *)
Definition loc : Type := nat.
Definition Py (A : Type) : Type :=
  gmap loc DataFrame -> result A * gmap loc DataFrame.

Definition py_ret {A} (a : A) : Py A := fun h => (ok a, h).

Definition py_bind {A B} (m : Py A) (f : A -> Py B) : Py B :=
  fun h =>
    match m h with
    | (inl e, h') => (inl e, h')
    | (inr a, h') => f a h'
    end.

Definition py_lift {A} (r : result A) : Py A := fun h => (r, h).

Declare Scope py_scope.
Delimit Scope py_scope with py.
Notation "x <- m ;; k" := (py_bind m (fun x => k))
  (at level 100, m at next level, right associativity) : py_scope.
Notation "m ;;; k" := (py_bind m (fun _ => k))
  (at level 100, right associativity) : py_scope.

(** Reading a table through its reference.  Python has no dangling
    reference; the model maps one to [ReferenceError]. *)
Definition py_read (l : loc) : Py DataFrame :=
  fun h =>
    match h !! l with
    | Some df => (ok df, h)
    | None => (raise ReferenceError, h)
    end.

(** [df.copy()]: a new table with the same contents. *)
Definition df_copy (l : loc) : Py loc :=
  fun h =>
    match h !! l with
    | Some df => let l' := fresh (dom h) in (ok l', <[l' := df]> h)
    | None => (raise ReferenceError, h)
    end.

(** In-place column assignment through a reference. *)
Definition py_setitem_array (l : loc) (name : string) (c : column) : Py unit :=
  fun h =>
    match h !! l with
    | Some df =>
        match setitem_array df name c with
        | inr df' => (ok tt, <[l := df']> h)
        | inl e => (inl e, h)
        end
    | None => (raise ReferenceError, h)
    end.

Definition py_setitem_series (l : loc) (name : string) (c : column) : Py unit :=
  fun h =>
    match h !! l with
    | Some df => (ok tt, <[l := setitem_series df name c]> h)
    | None => (raise ReferenceError, h)
    end.

Module Import PowerBIScript.
Import PowerBI.
Open Scope py_scope.

Section Startup.
(** [joblib.load], on the bytes of an existing file; [None] stands for a
    file that does not deserialise. *)
Context (load_classifier : list Byte.byte -> option Classifier)
        (load_scaler : list Byte.byte -> option Scaler).

Definition joblib_load {A} (load : list Byte.byte -> option A)
           (bytes : list Byte.byte) : result A :=
  match load bytes with
  | Some obj => ok obj
  | None => raise UnpicklingError
  end.

(** The module-level statements: [os.path.exists] is the lookup in the
    file system. *)
Definition startup (fs : gmap string (list Byte.byte)) : result Env :=
  match fs !! MODEL_FILE with
  | Some bytes =>
      rbind (joblib_load load_classifier bytes) (fun m =>
      rbind (match fs !! SCALER_FILE with
             | Some sbytes =>
                 rbind (joblib_load load_scaler sbytes)
                       (fun s => ok (Some s))
             | None => ok None
             end) (fun s =>
      ok {| _model := m; _scaler := s |}))
  | None =>
      raise (FileNotFoundError ("Model file not found: " ++ MODEL_FILE))
  end.
End Startup.

(** [_scaler.transform(X.values)] if there is a scaler, [X.values]
    otherwise. *)
Definition scale_values (env : Env) (X_values : list (list cell))
  : result (list (list cell)) :=
  match _scaler env with
  | Some sc => transform sc X_values
  | None => ok X_values
  end.

Definition powerbi_predict (env : Env) (dataset : loc) : Py loc :=
  X <- df_copy dataset ;;
  Xdf <- py_read X ;;
  X_values <- py_lift (scale_values env (values Xdf)) ;;
  probs <- py_lift (predict_proba (_model env) X_values) ;;
  let pd_probs := map snd probs in
  dataset_out <- df_copy dataset ;;
  py_setitem_array dataset_out "PD" (Float64 pd_probs) ;;;
  scores <- py_lift (mapM compute_score pd_probs) ;;
  py_setitem_array dataset_out "Behavior_Score" (Float64 scores) ;;;
  out <- py_read dataset_out ;;
  bs <- py_lift (rbind (getitem out "Behavior_Score") series_floats) ;;
  py_setitem_series dataset_out "Risk_Category"
                    (Object (map risk_label bs)) ;;;
  py_ret dataset_out.

(** Importing the module and calling [powerbi_predict(dataset)]. *)
Definition run_script (load_classifier : list Byte.byte -> option Classifier)
           (load_scaler : list Byte.byte -> option Scaler)
           (fs : gmap string (list Byte.byte)) (dataset : loc) : Py loc :=
  fun h =>
    match startup load_classifier load_scaler fs with
    | inl e => (inl e, h)
    | inr env => powerbi_predict env dataset h
    end.
End PowerBIScript.

(** ** The dashboard script

    One run of the script is modelled by what it renders, in order, and how
    it ends.  The widgets' state is an input of the run: the uploaded table
    (after [read_csv]), the numbers entered in the sidebar, and whether the
    button was pressed.  Layout, colours, emoji and number formatting are left
    out. *)

Inductive ui : Type :=
| st_set_page_config
| st_header
| st_file_uploader
| st_sidebar_header
| st_error (msg : string)
| st_sidebar_subheader
| st_sidebar_number_input (col : string)
| st_sidebar_selectbox (col : string)
| st_sidebar_button
| st_sidebar_success (pd_pred behavior_score : np_float) (risk : string)
| st_metric (label : string) (value : np_float)
| st_metric_count (label : string) (value : nat)
| st_histogram (title x : string)
| st_scatter (title x y color : string)
| st_download_button (data : DataFrame)
| st_info (msg : string)
| st_footer.

(** How a run ends before its last statement: [st.stop()] or an uncaught
    exception. *)
Inductive halt : Type :=
| Stopped
| Raised (e : exn).

Definition App (A : Type) : Type := list ui * (halt + A).

Definition app_ret {A} (a : A) : App A := ([], inr a).

Definition app_bind {A B} (m : App A) (f : A -> App B) : App B :=
  match m with
  | (out, inl stop) => (out, inl stop)
  | (out, inr a) => let '(out', r) := f a in ((out ++ out')%list, r)
  end.

Definition emit (w : ui) : App unit := ([w], inr tt).
Definition st_stop {A} : App A := ([], inl Stopped).

Definition app_lift {A} (r : result A) : App A :=
  match r with
  | inl e => ([], inl (Raised e))
  | inr a => ([], inr a)
  end.

Declare Scope app_scope.
Delimit Scope app_scope with app.
Notation "x <- m ;; k" := (app_bind m (fun x => k))
  (at level 100, m at next level, right associativity) : app_scope.
Notation "m ;;; k" := (app_bind m (fun _ => k))
  (at level 100, right associativity) : app_scope.

Fixpoint app_iter {A} (f : A -> App unit) (l : list A) : App unit :=
  match l with
  | [] => app_ret tt
  | x :: l' => app_bind (f x) (fun _ => app_iter f l')
  end.

Record Session : Type := {
  uploaded_file : option DataFrame;
  number_input : string -> R;
  predict_clicked : bool
}.

Module Import DashboardScript.
Import Dashboard Float.
Open Scope app_scope.

Definition is_numeric (c : column) : bool :=
  match c with
  | Float64 _ | Int64 _ => true
  | Object _ => false
  end.

(** [feature_cols = [c for c in df.columns if c != "PD"]] *)
Definition feature_cols (df : DataFrame) : list (string * column) :=
  List.filter (fun nc => negb (String.eqb (fst nc) "PD")) (cols df).

(** The form: a number input for a numeric column, a select box for the
    others. *)
Definition sidebar_form (df : DataFrame) : App unit :=
  emit st_sidebar_subheader ;;;
  app_iter (fun nc : string * column =>
              if is_numeric (snd nc)
              then emit (st_sidebar_number_input (fst nc))
              else emit (st_sidebar_selectbox (fst nc)))
           (feature_cols df).

(** [pd_pred += (user_inputs[num] - df[num].mean()) * 0.0001] over the
    numeric feature columns. *)
Fixpoint adjust_pd (inputs : string -> R) (nums : list (string * column))
         (pd_pred : np_float) : result np_float :=
  match nums with
  | [] => ok pd_pred
  | (num, c) :: nums' =>
      rbind (series_mean c) (fun m =>
      adjust_pd inputs nums'
        (add pd_pred
             (mul (sub (Finite (inputs num)) m) (Finite 0.0001%R))))
  end.

(** The prediction behind the button.  The script labels the score with an
    inline [if]/[elif] chain that has the tests of [risk_category]. *)
Definition sidebar_predict (df : DataFrame) (inputs : string -> R)
  : App unit :=
  pd_mean <- app_lift (rbind (getitem df "PD") series_mean) ;;
  pd_pred <- app_lift
    (adjust_pd inputs
       (List.filter (fun nc => is_numeric (snd nc)) (feature_cols df)) pd_mean) ;;
  let pd_pred := sidebar_clamp pd_pred in
  behavior_score <- app_lift (calculate_behavior_score pd_pred) ;;
  emit (st_sidebar_success pd_pred behavior_score
                           (risk_category behavior_score)).

(** The two column assignments of the main section. *)
Definition score_table (df : DataFrame) : result DataFrame :=
  rbind (getitem df "PD") (fun pd_col =>
  rbind (series_floats pd_col) (fun pds =>
  rbind (mapM calculate_behavior_score pds) (fun scores =>
  let df := setitem_series df "Behavior_Score" (Float64 scores) in
  rbind (getitem df "Behavior_Score") (fun score_col =>
  rbind (series_floats score_col) (fun bs =>
  ok (setitem_series df "Risk_Category"
                     (Object (map risk_category bs)))))))).

Definition count_high_risk (c : column) : nat :=
  match c with
  | Object l => length (List.filter (String.eqb "High Risk") l)
  | _ => 0
  end.

Definition main_section (df : DataFrame) : App unit :=
  df <- app_lift (score_table df) ;;
  avg_pd <- app_lift (rbind (getitem df "PD") series_mean) ;;
  avg_score <- app_lift (rbind (getitem df "Behavior_Score") series_mean) ;;
  cats <- app_lift (getitem df "Risk_Category") ;;
  emit (st_metric "Average PD" avg_pd) ;;;
  emit (st_metric "Average Behavior Score" avg_score) ;;;
  emit (st_metric_count "High Risk Customers" (count_high_risk cats)) ;;;
  emit (st_histogram "PD Distribution" "PD") ;;;
  emit (st_histogram "Behavior Score Distribution (300–900)"
                     "Behavior_Score") ;;;
  emit (st_scatter "PD vs Behavior Score" "PD" "Behavior_Score"
                   "Risk_Category") ;;;
  emit (st_download_button df).

Definition preamble : App unit :=
  emit st_set_page_config ;;;
  emit st_header ;;;
  emit st_file_uploader ;;;
  emit st_sidebar_header.

(** [if "PD" not in df.columns: st.error(...); st.stop()] *)
Definition pd_column_guard (df : DataFrame) : App unit :=
  if bool_decide ("PD" ∈ columns df) then app_ret tt
  else emit (st_error "CSV must contain a 'PD' column!") ;;; st_stop.

Definition sidebar (s : Session) (df : DataFrame) : App unit :=
  sidebar_form df ;;;
  emit st_sidebar_button ;;;
  if predict_clicked s then sidebar_predict df (number_input s)
  else app_ret tt.

Definition dashboard (s : Session) : App unit :=
  preamble ;;;
  match uploaded_file s with
  | Some df =>
      pd_column_guard df ;;;
      sidebar s df ;;;
      main_section df
  | None =>
      emit (st_info "Upload a CSV file to generate the scorecard dashboard.")
  end ;;;
  emit st_footer.
End DashboardScript.

(** ** Relations on scores used to state the properties *)



(** The odds were computed without an exception and are a finite positive
    number: no division by zero, and the logarithm is not taken at zero. *)
Definition log_odds_defined (odds : result np_float) : Prop :=
  exists r : R, odds = ok (Finite r) /\ (0 < r)%R.

(** The table that the scoring pass of the BI script builds on its copy of
    the input: the three column assignments, in order. *)
Definition scored (df : DataFrame) (pd_probs scores : list np_float)
  : DataFrame :=
  setitem_series
    (setitem_series (setitem_series df "PD" (Float64 pd_probs))
                    "Behavior_Score" (Float64 scores))
    "Risk_Category" (Object (map PowerBI.risk_label scores)).

(** [df'] is [df] with exactly three more columns, named [PD],
    [Behavior_Score] and [Risk_Category], after the columns of [df]. *)
Definition augmented (df df' : DataFrame) : Prop :=
  nrows df' = nrows df /\
  exists c1 c2 c3,
    cols df' = (cols df ++ [("PD", c1); ("Behavior_Score", c2);
                            ("Risk_Category", c3)])%list.

(** A classifier that gives every row the probabilities (0.8, 0.2), and a
    table with one row; used as concrete inputs below. *)
Definition constant_classifier : Classifier :=
  {| predict_proba :=
       fun rows => ok (map (fun _ => (Finite 0.8%R, Finite 0.2%R)) rows) |}.

Definition constant_env : Env :=
  {| _model := constant_classifier; _scaler := None |}.

Definition table_with_pd : DataFrame :=
  mkDF 1 [("PD", Float64 [Finite 0.9%R])].

Definition table_one_feature : DataFrame :=
  mkDF 1 [("feature_1", Float64 [Finite 0.12%R])].

(** A run that does not end in [st.stop()]. *)
Definition never_stops {A} (m : App A) : Prop := snd m <> inl Stopped.

(** A session with [table_with_pd] uploaded and the button not pressed. *)
Definition idle_session : Session :=
  {| uploaded_file := Some table_with_pd;
     number_input := fun _ => 0%R;
     predict_clicked := false |}.

(** ** Fixed-point squaring, for the enclosures of logarithms *)

Definition scale : Z := 2 ^ 140.
Definition sq_dn (v : Z) : Z := (v * v) / scale.
Definition sq_up (v : Z) : Z := (v * v + scale - 1) / scale.
Fixpoint iter_sq (sq : Z -> Z) (k : nat) (v : Z) : Z :=
  match k with
  | O => v
  | S k' => iter_sq sq k' (sq v)
  end.
Definition fixed (v : Z) : R := (IZR v / IZR scale)%R.

(** ** Further concrete inputs *)

(** A table that already carries the three output columns. *)
Definition table_scored : DataFrame :=
  mkDF 1 [("PD", Float64 [Finite 0.9%R]);
          ("Behavior_Score", Float64 [Finite 620%R]);
          ("Risk_Category", Object ["Medium"])].

(** A table with a row whose PD is exactly 1. *)
Definition table_with_pd_one : DataFrame :=
  mkDF 2 [("PD", Float64 [Finite 0.3%R; Finite 1%R])].

(** A session with [df] uploaded and the button pressed. *)
Definition session_of (df : DataFrame) : Session :=
  {| uploaded_file := Some df;
     number_input := fun _ => 0%R;
     predict_clicked := true |}.

(** A classifier that raises, and one that answers with no row. *)
Definition failing_env : Env :=
  {| _model := {| predict_proba := fun _ => raise ValueError |};
     _scaler := None |}.

Definition short_env : Env :=
  {| _model := {| predict_proba := fun _ => ok [] |}; _scaler := None |}.

(** The widgets that the sidebar renders. *)
Definition sidebar_widget (w : ui) : Prop :=
  match w with
  | st_sidebar_subheader | st_sidebar_number_input _
  | st_sidebar_selectbox _ | st_sidebar_button
  | st_sidebar_success _ _ _ => True
  | _ => False
  end.

(** * Properties *)

(** ** Logarithms of integers, compared through integer powers *)

Section LogBounds.
Open Scope R_scope.

Lemma ln_2_pos : 0 < ln 2.
Proof. pose proof ln_lt_2. lra. Qed.

Lemma ln_pow_Z (x n : Z) :
  (0 < x)%Z -> (0 <= n)%Z -> ln (IZR (x ^ n)) = IZR n * ln (IZR x).
Proof.
  intros Hx Hn.
  rewrite <- (Z2Nat.id n Hn) at 1.
  rewrite <- pow_IZR, ln_pow by now apply IZR_lt.
  now rewrite INR_IZR_INZ, Z2Nat.id.
Qed.

(** [x ^ n < y ^ m] on integers gives [n * ln x < m * ln y]. *)
Lemma ln_pow_lt (x y n m : Z) :
  (0 < x)%Z -> (0 < y)%Z -> (0 <= n)%Z -> (0 <= m)%Z ->
  (x ^ n < y ^ m)%Z ->
  IZR n * ln (IZR x) < IZR m * ln (IZR y).
Proof.
  intros Hx Hy Hn Hm Hlt.
  rewrite <- !ln_pow_Z by assumption.
  apply ln_increasing.
  - apply IZR_lt. apply Z.pow_pos_nonneg; lia.
  - now apply IZR_lt.
Qed.

(** Dividing by [ln 2]. *)
Lemma lt_div_ln2 (a x : R) : a * ln 2 < x -> a < x / ln 2.
Proof.
  intros H. apply Rmult_lt_reg_r with (ln 2); [apply ln_2_pos|].
  unfold Rdiv. rewrite Rmult_assoc, Rinv_l, Rmult_1_r; [exact H|].
  pose proof ln_2_pos. lra.
Qed.

Lemma div_ln2_lt (a x : R) : x < a * ln 2 -> x / ln 2 < a.
Proof.
  intros H. apply Rmult_lt_reg_r with (ln 2); [apply ln_2_pos|].
  unfold Rdiv. rewrite Rmult_assoc, Rinv_l, Rmult_1_r; [exact H|].
  pose proof ln_2_pos. lra.
Qed.

(** The odds [p / (1 - p)] are positive and strictly increasing on (0,1). *)
Lemma odds_pos (p : R) : 0 < p < 1 -> 0 < p / (1 - p).
Proof. intros [H0 H1]. apply Rdiv_lt_0_compat; lra. Qed.

Lemma odds_increasing (p q : R) :
  0 < p -> p < q -> q < 1 -> p / (1 - p) < q / (1 - q).
Proof.
  intros H0 Hpq H1.
  assert (Hp : 0 < 1 - p) by lra.
  assert (Hq : 0 < 1 - q) by lra.
  apply Rmult_lt_reg_r with ((1 - p) * (1 - q)).
  - now apply Rmult_lt_0_compat.
  - replace (p / (1 - p) * ((1 - p) * (1 - q))) with (p * (1 - q))
      by (field; lra).
    replace (q / (1 - q) * ((1 - p) * (1 - q))) with (q * (1 - p))
      by (field; lra).
    lra.
Qed.

Lemma log_odds_increasing (p q : R) :
  0 < p -> p < q -> q < 1 -> ln (p / (1 - p)) < ln (q / (1 - q)).
Proof.
  intros H0 Hpq H1. apply ln_increasing.
  - apply odds_pos; lra.
  - now apply odds_increasing.
Qed.
End LogBounds.

(** ** The score transform *)

Ltac float_dec :=
  repeat match goal with
    | |- context [Rlt_dec ?a ?b] => destruct (Rlt_dec a b); try lra
    | |- context [Rle_dec ?a ?b] => destruct (Rle_dec a b); try lra
    | |- context [Req_dec_T ?a ?b] => destruct (Req_dec_T a b); try lra
    end.

Section ScoreTransform.
Open Scope R_scope.
Import Float.

Lemma pbi_clamp_finite (p : R) :
  PowerBI.clamp (Finite p) = Finite (Rmax 0.001 (Rmin 0.999 p)).
Proof.
  unfold PowerBI.clamp, py_max, py_min, gtb, ltb, Rmax, Rmin.
  destruct (Rle_dec 0.999 p); destruct (Rlt_dec p 0.999); try lra;
    float_dec; f_equal; lra.
Qed.

Lemma pbi_clamp_range (x : np_float) :
  exists c, PowerBI.clamp x = Finite c /\ 0.001 <= c <= 0.999.
Proof.
  destruct x as [p| | |].
  - exists (Rmax 0.001 (Rmin 0.999 p)). split; [apply pbi_clamp_finite|].
    unfold Rmax, Rmin. destruct (Rle_dec 0.999 p); float_dec.
  - exists 0.999. unfold PowerBI.clamp, py_max, py_min, gtb, ltb.
    float_dec. split; [reflexivity|lra].
  - exists 0.001. unfold PowerBI.clamp, py_max, py_min, gtb, ltb.
    split; [reflexivity|lra].
  - exists 0.999. unfold PowerBI.clamp, py_max, py_min, gtb, ltb.
    float_dec. split; [reflexivity|lra].
Qed.

Lemma pbi_clamp_id (p : R) :
  0.001 <= p <= 0.999 -> PowerBI.clamp (Finite p) = Finite p.
Proof.
  intros Hp. rewrite pbi_clamp_finite. f_equal.
  unfold Rmax, Rmin. destruct (Rle_dec 0.999 p); float_dec.
Qed.

Lemma pbi_odds_of_clamped (x : np_float) (c : R) :
  PowerBI.clamp x = Finite c -> 0.001 <= c <= 0.999 ->
  PowerBI.odds_of x = ok (Finite (c / (1 - c))).
Proof.
  intros Hc Hr. unfold PowerBI.odds_of. rewrite Hc. cbn.
  float_dec. reflexivity.
Qed.

Lemma pbi_score_clamped (x : np_float) (c : R) :
  PowerBI.clamp x = Finite c -> 0.001 <= c <= 0.999 ->
  PowerBI.compute_score x =
    ok (Finite (PowerBI.A - PowerBI.B * ln (c / (1 - c)))).
Proof.
  intros Hc Hr. unfold PowerBI.compute_score.
  rewrite (pbi_odds_of_clamped x c Hc Hr). cbn.
  assert (0 < c / (1 - c)) by (apply odds_pos; lra).
  float_dec. reflexivity.
Qed.

Lemma dash_score_finite (p : R) :
  0 < p < 1 ->
  Dashboard.calculate_behavior_score (Finite p) =
    ok (Finite (Dashboard.A - Dashboard.B * ln (p / (1 - p)))).
Proof.
  intros Hp. unfold Dashboard.calculate_behavior_score, Dashboard.odds_of.
  cbn. float_dec. cbn. change (1 + - p) with (1 - p).
  assert (0 < p / (1 - p)) by (apply odds_pos; lra).
  float_dec. reflexivity.
Qed.

Lemma pbi_B_pos : 0 < PowerBI.B.
Proof.
  unfold PowerBI.B, PowerBI.PDO. apply Rdiv_lt_0_compat; [lra|apply ln_2_pos].
Qed.

Lemma dash_B_pos : 0 < Dashboard.B.
Proof. unfold Dashboard.B. lra. Qed.
End ScoreTransform.

(** ** The BI script's constants *)

Section Constants.
Open Scope R_scope.

(** [A = 600 + 20 * log2 20]. *)
Lemma pbi_A_eq : PowerBI.A = 600 + 20 * (ln 20 / ln 2).
Proof.
  unfold PowerBI.A, PowerBI.B, PowerBI.SCORE_REF, PowerBI.PDO, PowerBI.ODDS.
  unfold Rdiv. ring.
Qed.

(** [2^17287 < 20^4000 < 2^17289], so that [log2 20] lies between
    4.32175 and 4.32225. *)
Lemma log2_20_bounds : 4.32175 < ln 20 / ln 2 < 4.32225.
Proof.
  split.
  - apply lt_div_ln2.
    assert (H : 17287 * ln 2 < 4000 * ln 20).
    { apply (ln_pow_lt 2 20 17287 4000); [lia .. | now vm_compute]. }
    lra.
  - apply div_ln2_lt.
    assert (H : 4000 * ln 20 < 17289 * ln 2).
    { apply (ln_pow_lt 20 2 4000 17289); [lia .. | now vm_compute]. }
    lra.
Qed.

Lemma pbi_A_bounds : 686.435 < PowerBI.A < 686.445.
Proof. rewrite pbi_A_eq. pose proof log2_20_bounds. lra. Qed.

(** [ln 999 < 10 * ln 2], since [999 < 2^10]. *)
Lemma ln_999_bound : ln 999 / ln 2 < 10.
Proof.
  apply div_ln2_lt.
  assert (H : 1 * ln 999 < 10 * ln 2).
  { apply (ln_pow_lt 999 2 1 10); [lia .. | now vm_compute]. }
  lra.
Qed.

Lemma ln_999_pos : 0 < ln 999.
Proof. rewrite <- ln_1. apply ln_increasing; lra. Qed.

(** On the clamped interval the log-odds stay within [ln 999]. *)
Lemma log_odds_clamped (c : R) :
  0.001 <= c <= 0.999 -> - ln 999 <= ln (c / (1 - c)) <= ln 999.
Proof.
  intros [Hl Hu].
  assert (Hlo : ln (0.001 / (1 - 0.001)) = - ln 999).
  { rewrite <- ln_Rinv by lra. f_equal. lra. }
  assert (Hhi : ln (0.999 / (1 - 0.999)) = ln 999).
  { f_equal. lra. }
  split.
  - rewrite <- Hlo. destruct Hl as [Hl | <-]; [|lra].
    left. apply log_odds_increasing; lra.
  - rewrite <- Hhi. destruct Hu as [Hu | ->]; [|lra].
    left. apply log_odds_increasing; lra.
Qed.

Lemma pbi_B_mul (x : R) : PowerBI.B * x = 20 * (x / ln 2).
Proof. unfold PowerBI.B, PowerBI.PDO, Rdiv. ring. Qed.
End Constants.

(** ** Enclosures of [ln 2] and [ln 20], and the agreement of the constants

    [ln t] is enclosed by squaring a fixed-point number [v / 2^140] sixty
    times with directed rounding: if the result is at least [t] then
    [t <= (v / 2^140) ^ (2^60)], and [ln r <= r - 1] bounds [ln t] from
    above; symmetrically from below with [1 - 1 / r <= ln r]. *)

Section Chains.
Open Scope R_scope.

Lemma scale_pos : (0 < scale)%Z.
Proof. reflexivity. Qed.

Lemma IZR_scale_pos : 0 < IZR scale.
Proof. apply IZR_lt, scale_pos. Qed.

Lemma fixed_ge_1 v : (scale <= v)%Z -> 1 <= fixed v.
Proof.
  intros H. unfold fixed. pose proof IZR_scale_pos as Hs.
  apply IZR_le in H.
  apply Rmult_le_reg_r with (IZR scale); [exact Hs|].
  unfold Rdiv. rewrite Rmult_assoc, Rinv_l by lra. lra.
Qed.

Lemma fixed_le v w : (v <= w)%Z -> fixed v <= fixed w.
Proof.
  intros H. unfold fixed, Rdiv. apply Rmult_le_compat_r.
  - left. apply Rinv_0_lt_compat, IZR_scale_pos.
  - now apply IZR_le.
Qed.

Lemma fixed_mul v w : fixed v * fixed w = IZR (v * w) / IZR scale / IZR scale.
Proof.
  unfold fixed. rewrite mult_IZR. field. pose proof IZR_scale_pos. lra.
Qed.

Lemma sq_dn_spec v :
  (scale <= v)%Z -> (scale <= sq_dn v)%Z /\ fixed (sq_dn v) <= fixed v * fixed v.
Proof.
  intros H. pose proof scale_pos as Hs. unfold sq_dn. split.
  - apply Z.div_le_lower_bound; [exact Hs|]. nia.
  - rewrite fixed_mul. unfold fixed, Rdiv. apply Rmult_le_compat_r.
    + left. apply Rinv_0_lt_compat, IZR_scale_pos.
    + apply Rmult_le_reg_r with (IZR scale); [apply IZR_scale_pos|].
      rewrite Rmult_assoc, Rinv_l, Rmult_1_r
        by (pose proof IZR_scale_pos; lra).
      rewrite <- mult_IZR. apply IZR_le.
      rewrite Z.mul_comm. apply Z.mul_div_le. exact Hs.
Qed.

Lemma sq_up_spec v :
  (scale <= v)%Z -> (scale <= sq_up v)%Z /\ fixed v * fixed v <= fixed (sq_up v).
Proof.
  intros H. pose proof scale_pos as Hs. unfold sq_up. split.
  - apply Z.div_le_lower_bound; [exact Hs|]. nia.
  - rewrite fixed_mul. unfold fixed, Rdiv. apply Rmult_le_compat_r.
    + left. apply Rinv_0_lt_compat, IZR_scale_pos.
    + apply Rmult_le_reg_r with (IZR scale); [apply IZR_scale_pos|].
      rewrite Rmult_assoc, Rinv_l, Rmult_1_r
        by (pose proof IZR_scale_pos; lra).
      rewrite <- mult_IZR. apply IZR_le.
      pose proof (Z.div_mod (v * v + scale - 1) scale) as Hd.
      pose proof (Z.mod_pos_bound (v * v + scale - 1) scale Hs) as Hm.
      lia.
Qed.

Lemma ln_sq r : 0 < r -> ln (r * r) = 2 * ln r.
Proof. intros H. rewrite ln_mult by assumption. ring. Qed.

Lemma ln_le r1 r2 : 0 < r1 -> r1 <= r2 -> ln r1 <= ln r2.
Proof.
  intros H0 [H | ->]; [left; now apply ln_increasing | right; reflexivity].
Qed.

Lemma chain_dn k : forall v,
  (scale <= v)%Z ->
  (scale <= iter_sq sq_dn k v)%Z /\
  ln (fixed (iter_sq sq_dn k v)) <= 2 ^ k * ln (fixed v).
Proof.
  induction k as [|k IH]; intros v Hv; cbn [iter_sq].
  - split; [exact Hv|]. rewrite pow_O. lra.
  - destruct (sq_dn_spec v Hv) as [Hs Hle].
    destruct (IH (sq_dn v) Hs) as [Hs' Hln]. split; [exact Hs'|].
    pose proof (fixed_ge_1 v Hv) as H1.
    pose proof (fixed_ge_1 _ Hs) as H2.
    assert (Hl : ln (fixed (sq_dn v)) <= 2 * ln (fixed v)).
    { rewrite <- ln_sq by lra. apply ln_le; [lra | exact Hle]. }
    assert (Hp : 0 < 2 ^ k) by (apply pow_lt; lra).
    rewrite <- tech_pow_Rmult. nra.
Qed.

Lemma chain_up k : forall v,
  (scale <= v)%Z ->
  2 ^ k * ln (fixed v) <= ln (fixed (iter_sq sq_up k v)).
Proof.
  induction k as [|k IH]; intros v Hv; cbn [iter_sq].
  - rewrite pow_O. lra.
  - destruct (sq_up_spec v Hv) as [Hs Hle].
    specialize (IH (sq_up v) Hs).
    pose proof (fixed_ge_1 v Hv) as H1.
    assert (Hl : 2 * ln (fixed v) <= ln (fixed (sq_up v))).
    { rewrite <- ln_sq by lra. apply ln_le; [nra | exact Hle]. }
    assert (Hp : 0 < 2 ^ k) by (apply pow_lt; lra).
    rewrite <- tech_pow_Rmult. nra.
Qed.

Lemma ln_le_pred r : 0 < r -> ln r <= r - 1.
Proof.
  intros H. pose proof (exp_ineq1_le (r - 1)) as He.
  replace (1 + (r - 1)) with r in He by ring.
  destruct He as [He | He].
  - left. rewrite <- (ln_exp (r - 1)). now apply ln_increasing.
  - right. rewrite He at 1. apply ln_exp.
Qed.

Lemma ln_ge_inv r : 0 < r -> 1 - / r <= ln r.
Proof.
  intros H. pose proof (ln_le_pred (/ r) (Rinv_0_lt_compat r H)) as Hi.
  rewrite ln_Rinv in Hi by assumption. lra.
Qed.

Lemma fixed_mul_scale t : fixed (t * scale) = IZR t.
Proof.
  unfold fixed. rewrite mult_IZR. field. pose proof IZR_scale_pos. lra.
Qed.

(** [ln t <= 2^k * (v/scale - 1)] when squaring [v] [k] times, rounding
    down, reaches [t]. *)
Lemma ln_upper (t v : Z) (k : nat) :
  (0 < t)%Z -> (scale <= v)%Z -> (t * scale <= iter_sq sq_dn k v)%Z ->
  ln (IZR t) <= 2 ^ k * (fixed v - 1).
Proof.
  intros Ht Hv Hreach.
  destruct (chain_dn k v Hv) as [_ Hc].
  pose proof (fixed_le _ _ Hreach) as Hf. rewrite fixed_mul_scale in Hf.
  assert (H0 : 0 < IZR t) by now apply IZR_lt.
  pose proof (ln_le _ _ H0 Hf) as Hl.
  pose proof (fixed_ge_1 v Hv) as H1.
  pose proof (ln_le_pred (fixed v)) as Hp.
  assert (Hk : 0 < 2 ^ k) by (apply pow_lt; lra).
  assert (ln (fixed v) <= fixed v - 1) by (apply Hp; lra).
  nra.
Qed.

Lemma ln_lower (t v : Z) (k : nat) :
  (scale <= v)%Z -> (iter_sq sq_up k v <= t * scale)%Z ->
  2 ^ k * (1 - / fixed v) <= ln (IZR t).
Proof.
  intros Hv Hreach.
  pose proof (chain_up k v Hv) as Hc.
  pose proof (fixed_le _ _ Hreach) as Hf. rewrite fixed_mul_scale in Hf.
  pose proof (fixed_ge_1 v Hv) as H1.
  assert (Hit : 1 <= fixed (iter_sq sq_up k v)).
  { clear Hc Hf Hreach. revert v Hv H1.
    induction k as [|k IH]; intros v Hv H1; cbn [iter_sq]; [exact H1|].
    destruct (sq_up_spec v Hv) as [Hs _].
    apply IH; [exact Hs | now apply fixed_ge_1]. }
  assert (Hl : ln (fixed (iter_sq sq_up k v)) <= ln (IZR t))
    by (apply ln_le; [lra | exact Hf]).
  assert (Hk : 0 < 2 ^ k) by (apply pow_lt; lra).
  assert (1 - / fixed v <= ln (fixed v)) by (apply ln_ge_inv; lra).
  nra.
Qed.
End Chains.

Section Agreement.
Open Scope R_scope.

Lemma ln_2_enclosure :
  2 ^ 60 * (1 - / fixed 1393796574908163947183945915412523835695579)
  <= ln 2
  <= 2 ^ 60 * (fixed 1393796574908163947183945915412523835695835 - 1).
Proof.
  split.
  - apply (ln_lower 2); now vm_compute.
  - apply (ln_upper 2); now vm_compute.
Qed.

Lemma ln_20_enclosure :
  2 ^ 60 * (1 - / fixed 1393796574908163949967600486192777656221399)
  <= ln 20
  <= 2 ^ 60 * (fixed 1393796574908163949967600486192777656221655 - 1).
Proof.
  split.
  - apply (ln_lower 20); now vm_compute.
  - apply (ln_upper 20); now vm_compute.
Qed.

Lemma pow_2_60 : 2 ^ 60 = 1152921504606846976.
Proof. rewrite pow_IZR. apply f_equal. now vm_compute. Qed.

Lemma fixed_eq v : fixed v = IZR v / 1393796574908163946345982392040522594123776.
Proof. reflexivity. Qed.

(** The constants that the BI script recomputes and the constants that the
    dashboard hard-codes are the same calibration: as real numbers they
    differ by less than 6e-14 and 2e-15, below the resolution of a double
    at these magnitudes. *)
Lemma constants_agree :
  Rabs (PowerBI.A - Dashboard.A) < 6 / 10 ^ 14 /\
  Rabs (PowerBI.B - Dashboard.B) < 2 / 10 ^ 15.
Proof.
  pose proof ln_2_enclosure as [Hl2 Hh2].
  pose proof ln_20_enclosure as [Hl20 Hh20].
  rewrite pow_2_60, fixed_eq in Hl2, Hh2, Hl20, Hh20.
  rewrite Rinv_div in Hl2, Hl20.
  pose proof ln_2_pos as L.
  rewrite pbi_A_eq. unfold PowerBI.B, PowerBI.PDO, Dashboard.A, Dashboard.B.
  split; apply Rabs_def1.
  - assert (H : ln 20 / ln 2 < (686.4385618977473 + 6 / 10 ^ 14 - 600) / 20).
    { apply div_ln2_lt. lra. }
    lra.
  - assert (H : (686.4385618977473 - 6 / 10 ^ 14 - 600) / 20 < ln 20 / ln 2).
    { apply lt_div_ln2. lra. }
    lra.
  - assert (H : 20 / ln 2 < 28.85390081777927 + 2 / 10 ^ 15).
    { apply div_ln2_lt. lra. }
    lra.
  - assert (H : 28.85390081777927 - 2 / 10 ^ 15 < 20 / ln 2).
    { apply lt_div_ln2. lra. }
    lra.
Qed.
End Agreement.

(** ** Monotonicity of the score in PD *)

Section Monotone.
Open Scope R_scope.
Import Float.





End Monotone.

(** ** The clamp and the logarithm's argument *)

Section Clamp.
Open Scope R_scope.
Import Float.

Lemma dash_sidebar_clamp_finite (p : R) :
  Dashboard.sidebar_clamp (Finite p) = Finite (Rmax (Rmin p 0.99) 0.01).
Proof.
  unfold Dashboard.sidebar_clamp, py_max, py_min, gtb, ltb, Rmax, Rmin.
  destruct (Rle_dec p 0.99); destruct (Rlt_dec 0.99 p); try lra;
    float_dec; f_equal; lra.
Qed.

Lemma dash_odds_finite (p : R) :
  p <> 1 -> Dashboard.odds_of (Finite p) = ok (Finite (p / (1 - p))).
Proof.
  intros Hp. unfold Dashboard.odds_of. cbn. float_dec. reflexivity.
Qed.

End Clamp.

(** ** The score at PD = 0.5 and the range of the score *)

Section Range.
Open Scope R_scope.
Import Float.

Lemma pbi_score_half : PowerBI.compute_score (Finite 0.5) = ok (Finite PowerBI.A).
Proof.
  rewrite (pbi_score_clamped (Finite 0.5) 0.5);
    [|apply pbi_clamp_id; lra|lra].
  do 2 f_equal.
  replace (0.5 / (1 - 0.5)) with 1 by lra.
  rewrite ln_1. ring.
Qed.

(** C5: at PD = 0.5 the BI script's transform returns exactly [A], which
    rounds to 686.44, and that score is labelled "Medium". *)
Theorem C5_score_at_half :
  PowerBI.compute_score (Finite 0.5) = ok (Finite PowerBI.A) /\
  686.435 < PowerBI.A < 686.445 /\
  rbind (PowerBI.compute_score (Finite 0.5))
        (fun s => ok (PowerBI.risk_label s)) = ok "Medium".
Proof.
  pose proof pbi_A_bounds as HA.
  split; [apply pbi_score_half|]. split; [exact HA|].
  rewrite pbi_score_half. cbn. unfold PowerBI.risk_label, geb.
  float_dec. reflexivity.
Qed.

(** Every score of the BI script lies in [300, 900] (in fact between 480
    and 900), whatever the input. *)
Lemma pbi_score_range (x : np_float) :
  exists s, PowerBI.compute_score x = ok (Finite s) /\ 300 <= s <= 900.
Proof.
  destruct (pbi_clamp_range x) as (c & Hc & Hr).
  eexists. split; [now apply pbi_score_clamped with (c := c)|].
  rewrite pbi_B_mul, pbi_A_eq.
  pose proof log2_20_bounds as H20.
  pose proof (log_odds_clamped c Hr) as [Hlo Hhi].
  pose proof ln_999_bound as H999.
  pose proof ln_2_pos as L.
  assert (Hup : ln (c / (1 - c)) / ln 2 <= ln 999 / ln 2).
  { unfold Rdiv. apply Rmult_le_compat_r; [|exact Hhi].
    left. now apply Rinv_0_lt_compat. }
  assert (Hdn : - (ln 999 / ln 2) <= ln (c / (1 - c)) / ln 2).
  { replace (- (ln 999 / ln 2)) with (- ln 999 * / ln 2)
      by (unfold Rdiv; ring).
    unfold Rdiv. apply Rmult_le_compat_r; [|exact Hlo].
    left. now apply Rinv_0_lt_compat. }
  lra.
Qed.

(** [ln 99999 > 8], since [2^16 < 99999] and [ln 2 > 1/2]. *)
Lemma ln_99999_bound : 8 < ln 99999.
Proof.
  assert (H : 16 * ln 2 < 1 * ln 99999).
  { apply (ln_pow_lt 2 99999 16 1); [lia .. | now vm_compute]. }
  pose proof ln_lt_2. lra.
Qed.

(** C6: the BI script's clamped transform maps every input into
    [300, 900]; the dashboard's unclamped transform does not: at
    PD = 0.00001 its score is above 900. *)
Theorem C6_score_range :
  (forall x, exists s,
      PowerBI.compute_score x = ok (Finite s) /\ 300 <= s <= 900) /\
  (exists s, Dashboard.calculate_behavior_score (Finite 0.00001)
             = ok (Finite s) /\ 900 < s).
Proof.
  split; [exact pbi_score_range|].
  eexists. split; [apply dash_score_finite; lra|].
  replace (0.00001 / (1 - 0.00001)) with (/ 99999) by lra.
  rewrite ln_Rinv by lra.
  pose proof ln_99999_bound. unfold Dashboard.A, Dashboard.B. nra.
Qed.
End Range.

(** ** Risk labels *)

Section RiskLabels.
Open Scope R_scope.
Import Float.

Ltac label_cases :=
  unfold PowerBI.risk_label, Dashboard.risk_category, geb, ltb;
  float_dec;
  repeat split; intros; try discriminate; try reflexivity; try lra.

Lemma pbi_risk_label_buckets (s : R) :
  (PowerBI.risk_label (Finite s) = "High" <-> s < 600) /\
  (PowerBI.risk_label (Finite s) = "Medium" <-> 600 <= s < 700) /\
  (PowerBI.risk_label (Finite s) = "Low" <-> 700 <= s).
Proof. label_cases. Qed.

Lemma dash_risk_category_buckets (s : R) :
  (Dashboard.risk_category (Finite s) = "High Risk" <-> s < 580) /\
  (Dashboard.risk_category (Finite s) = "Medium Risk" <-> 580 <= s < 700) /\
  (Dashboard.risk_category (Finite s) = "Low Risk" <-> 700 <= s).
Proof. label_cases. Qed.

Lemma pbi_risk_label_closed (x : np_float) :
  PowerBI.risk_label x = "Low" \/ PowerBI.risk_label x = "Medium" \/
  PowerBI.risk_label x = "High".
Proof.
  unfold PowerBI.risk_label.
  destruct (geb x (Finite 700)); [now left|].
  destruct (geb x (Finite 600)); [right; now left | right; now right].
Qed.

Lemma dash_risk_category_closed (x : np_float) :
  Dashboard.risk_category x = "Low Risk" \/
  Dashboard.risk_category x = "Medium Risk" \/
  Dashboard.risk_category x = "High Risk".
Proof.
  unfold Dashboard.risk_category.
  destruct (ltb x (Finite 580)); [right; now right|].
  destruct (ltb x (Finite 700)); [right; now left | now left].
Qed.

(** C4: each labeller gives every real score one of its three labels,
    and each label is the label of exactly one interval of the score
    line: below 600, from 600 up to 700, and from 700 on in the BI
    script; below 580, from 580 up to 700, and from 700 on in the
    dashboard. *)
Theorem C4_three_buckets (s : R) :
  ((PowerBI.risk_label (Finite s) = "High" <-> s < 600) /\
   (PowerBI.risk_label (Finite s) = "Medium" <-> 600 <= s < 700) /\
   (PowerBI.risk_label (Finite s) = "Low" <-> 700 <= s)) /\
  ((Dashboard.risk_category (Finite s) = "High Risk" <-> s < 580) /\
   (Dashboard.risk_category (Finite s) = "Medium Risk" <-> 580 <= s < 700) /\
   (Dashboard.risk_category (Finite s) = "Low Risk" <-> 700 <= s)) /\
  (PowerBI.risk_label (Finite s) = "Low" \/
   PowerBI.risk_label (Finite s) = "Medium" \/
   PowerBI.risk_label (Finite s) = "High") /\
  (Dashboard.risk_category (Finite s) = "Low Risk" \/
   Dashboard.risk_category (Finite s) = "Medium Risk" \/
   Dashboard.risk_category (Finite s) = "High Risk").
Proof.
  split; [apply pbi_risk_label_buckets|].
  split; [apply dash_risk_category_buckets|].
  split; [apply pbi_risk_label_closed | apply dash_risk_category_closed].
Qed.

Lemma labels_disjoint (x y : np_float) :
  PowerBI.risk_label x <> Dashboard.risk_category y.
Proof.
  destruct (pbi_risk_label_closed x) as [-> | [-> | ->]];
    destruct (dash_risk_category_closed y) as [-> | [-> | ->]];
    discriminate.
Qed.

(** C10: the two labellers never return the same label, so they differ as
    functions; and a score in [580, 600) falls in the BI script's bucket
    below its lower boundary ("High") but in the dashboard's middle bucket
    ("Medium Risk"). *)
Theorem C10_labelers_differ (s : R) :
  580 <= s -> s < 600 ->
  PowerBI.risk_label (Finite s) = "High" /\
  Dashboard.risk_category (Finite s) = "Medium Risk" /\
  PowerBI.risk_label <> Dashboard.risk_category /\
  (forall x y, PowerBI.risk_label x <> Dashboard.risk_category y).
Proof.
  intros Hlo Hhi.
  split; [apply pbi_risk_label_buckets; lra|].
  split; [apply dash_risk_category_buckets; lra|].
  split; [|exact labels_disjoint].
  intros Heq. apply (labels_disjoint NaN NaN). now rewrite Heq.
Qed.

Lemma C10_labelers_differ_witness :
  PowerBI.risk_label (Finite 590) = "High" /\
  Dashboard.risk_category (Finite 590) = "Medium Risk" /\
  PowerBI.risk_label <> Dashboard.risk_category /\
  (forall x y, PowerBI.risk_label x <> Dashboard.risk_category y).
Proof. apply (C10_labelers_differ 590); lra. Defined.
End RiskLabels.

(** ** The BI script's start-up check *)

Section StartupCheck.
Context (load_classifier : list Byte.byte -> option Classifier)
        (load_scaler : list Byte.byte -> option Scaler).

Lemma startup_missing_model (fs : gmap string (list Byte.byte)) :
  fs !! PowerBI.MODEL_FILE = None ->
  startup load_classifier load_scaler fs
  = raise (FileNotFoundError "Model file not found: behavior_model.pkl").
Proof. intros H. unfold startup. now rewrite H. Qed.

Lemma startup_not_found_inv (fs : gmap string (list Byte.byte)) msg :
  startup load_classifier load_scaler fs = raise (FileNotFoundError msg) ->
  fs !! PowerBI.MODEL_FILE = None.
Proof.
  unfold startup, joblib_load.
  destruct (fs !! PowerBI.MODEL_FILE) as [bytes|]; [|reflexivity].
  destruct (load_classifier bytes); cbn; [|discriminate].
  destruct (fs !! PowerBI.SCALER_FILE) as [sbytes|]; cbn; [|discriminate].
  destruct (load_scaler sbytes); cbn; discriminate.
Qed.

(** C7: start-up raises [FileNotFoundError] exactly when the model file
    does not exist; then the script ends with that error for every
    table, and no table is copied or scored (the heap is unchanged).
    With the model file present and loadable, a missing scaler file
    raises nothing: start-up succeeds with no scaler. *)
Theorem C7_model_file_check (fs : gmap string (list Byte.byte)) :
  (startup load_classifier load_scaler fs
     = raise (FileNotFoundError "Model file not found: behavior_model.pkl")
   <-> fs !! PowerBI.MODEL_FILE = None) /\
  (forall msg, startup load_classifier load_scaler fs = raise (FileNotFoundError msg) ->
               fs !! PowerBI.MODEL_FILE = None) /\
  (fs !! PowerBI.MODEL_FILE = None ->
   forall dataset h,
     run_script load_classifier load_scaler fs dataset h
     = (raise (FileNotFoundError "Model file not found: behavior_model.pkl"),
        h)) /\
  (forall bytes m,
      fs !! PowerBI.MODEL_FILE = Some bytes ->
      load_classifier bytes = Some m ->
      fs !! PowerBI.SCALER_FILE = None ->
      startup load_classifier load_scaler fs = ok {| _model := m; _scaler := None |}).
Proof.
  split; [split; [apply startup_not_found_inv | apply startup_missing_model]|].
  split; [apply startup_not_found_inv|]. split.
  - intros H dataset h. unfold run_script.
    now rewrite (startup_missing_model fs H).
  - intros bytes m Hm Hl Hs. unfold startup, joblib_load.
    now rewrite Hm, Hl, Hs.
Qed.
End StartupCheck.

(** ** The BI script's scoring pass *)

Section ScoringPass.
Import PowerBI.

Lemma assoc_get_set_eq name c cs : assoc_get name (assoc_set name c cs) = Some c.
Proof.
  induction cs as [|[n c0] cs IH]; cbn.
  - now rewrite String.eqb_refl.
  - destruct (String.eqb n name) eqn:E; cbn; now rewrite E.
Qed.

Lemma assoc_set_fresh name c cs :
  name ∉ map fst cs -> assoc_set name c cs = (cs ++ [(name, c)])%list.
Proof.
  induction cs as [|[n c0] cs IH]; cbn; intros Hn; [reflexivity|].
  apply not_elem_of_cons in Hn as [Hne Hn].
  destruct (String.eqb n name) eqn:E.
  - apply String.eqb_eq in E. congruence.
  - now rewrite IH.
Qed.

Lemma mapM_cell_float (l : list np_float) :
  mapM cell_float (map CFloat l) = ok l.
Proof. induction l as [|x l IH]; cbn; [reflexivity|]. now rewrite IH. Qed.

Lemma series_floats_float64 (l : list np_float) :
  series_floats (Float64 l) = ok l.
Proof. apply mapM_cell_float. Qed.

Lemma mapM_length {A B} (f : A -> result B) l r :
  mapM f l = ok r -> length r = length l.
Proof.
  revert r. induction l as [|x l IH]; cbn; intros r H.
  - now injection H as <-.
  - destruct (f x); [discriminate|]. cbn in H.
    destruct (mapM f l) as [|ys]; [discriminate|]. cbn in H.
    injection H as <-. cbn. f_equal. now apply IH.
Qed.

(** The score list comprehension never raises. *)
Lemma compute_scores_total (ps : list np_float) :
  exists scores, mapM compute_score ps = ok scores.
Proof.
  induction ps as [|p ps [scores IH]]; cbn; [now eexists|].
  destruct (pbi_score_range p) as (s & -> & _). cbn. rewrite IH. cbn.
  now eexists.
Qed.

Lemma py_bind_ok {A B} (m : Py A) (f : A -> Py B) h a h' :
  m h = (ok a, h') -> py_bind m f h = f a h'.
Proof. intros H. unfold py_bind. now rewrite H. Qed.

Lemma df_copy_ok l (h : gmap loc DataFrame) df :
  h !! l = Some df ->
  df_copy l h = (ok (fresh (dom h)), <[fresh (dom h) := df]> h).
Proof. intros H. unfold df_copy. now rewrite H. Qed.

Lemma py_read_ok l (h : gmap loc DataFrame) df :
  h !! l = Some df -> py_read l h = (ok df, h).
Proof. intros H. unfold py_read. now rewrite H. Qed.

Lemma py_setitem_array_ok l name c (h : gmap loc DataFrame) df :
  h !! l = Some df -> column_length c = nrows df ->
  py_setitem_array l name c h
  = (ok tt, <[l := setitem_series df name c]> h).
Proof.
  intros H Hlen. unfold py_setitem_array, setitem_array.
  now rewrite H, Hlen, Nat.eqb_refl.
Qed.

Lemma py_setitem_series_ok l name c (h : gmap loc DataFrame) df :
  h !! l = Some df ->
  py_setitem_series l name c h
  = (ok tt, <[l := setitem_series df name c]> h).
Proof. intros H. unfold py_setitem_series. now rewrite H. Qed.

Lemma powerbi_predict_spec env dataset (h : gmap loc DataFrame) df Xv probs :
  h !! dataset = Some df ->
  scale_values env (values df) = ok Xv ->
  predict_proba (_model env) Xv = ok probs ->
  length probs = nrows df ->
  exists scores,
    mapM compute_score (map snd probs) = ok scores /\
    let X := fresh (dom h) in
    let h1 := <[X := df]> h in
    let out := fresh (dom h1) in
    powerbi_predict env dataset h
    = (ok out, <[out := scored df (map snd probs) scores]> h1).
Proof.
  intros Hd Hs Hp Hlen.
  destruct (compute_scores_total (map snd probs)) as [scores Hsc].
  exists scores. split; [exact Hsc|]. cbn zeta.
  set (X := fresh (dom h)). set (h1 := <[X := df]> h).
  set (out := fresh (dom h1)).
  assert (HX : X ≠ dataset).
  { intros HX. apply (is_fresh (dom h)). apply elem_of_dom.
    exists df. fold X. now rewrite HX. }
  assert (H1 : h1 !! dataset = Some df).
  { unfold h1. now rewrite lookup_insert_ne. }
  unfold powerbi_predict.
  rewrite (py_bind_ok _ _ _ _ _ (df_copy_ok _ _ _ Hd)). fold X h1.
  rewrite (py_bind_ok _ _ h1 df h1) by (apply py_read_ok, lookup_insert_eq).
  rewrite Hs. rewrite (py_bind_ok _ _ h1 Xv h1) by reflexivity.
  rewrite Hp. rewrite (py_bind_ok _ _ h1 probs h1) by reflexivity.
  rewrite (py_bind_ok _ _ _ _ _ (df_copy_ok _ _ _ H1)). fold out.
  erewrite py_bind_ok; cycle 1.
  { apply py_setitem_array_ok; [apply lookup_insert_eq|].
    unfold column_length. cbn. now rewrite !length_map. }
  rewrite insert_insert_eq.
  rewrite Hsc. rewrite (py_bind_ok _ _ _ scores _ eq_refl).
  erewrite py_bind_ok; cycle 1.
  { apply py_setitem_array_ok; [apply lookup_insert_eq|].
    unfold column_length. cbn.
    now rewrite length_map, (mapM_length _ _ _ Hsc), length_map. }
  rewrite insert_insert_eq.
  erewrite py_bind_ok; cycle 1.
  { apply py_read_ok, lookup_insert_eq. }
  unfold getitem at 1. cbn [cols setitem_series].
  rewrite assoc_get_set_eq. cbn [rbind ok].
  rewrite series_floats_float64.
  erewrite py_bind_ok by reflexivity.
  erewrite py_bind_ok; cycle 1.
  { apply py_setitem_series_ok, lookup_insert_eq. }
  rewrite insert_insert_eq. reflexivity.
Qed.

Lemma py_bind_keeps {A B} (m : Py A) (f : A -> Py B) h
      (Q : gmap loc DataFrame -> Prop) :
  (forall e h', m h = (inl e, h') -> Q h') ->
  (forall a h', m h = (inr a, h') -> Q (snd (f a h'))) ->
  Q (snd (py_bind m f h)).
Proof.
  intros He Ha. unfold py_bind.
  destruct (m h) as [[e|a] h'] eqn:E; cbn; [now apply (He e) | now apply Ha].
Qed.

Lemma powerbi_predict_keeps_input env dataset (h : gmap loc DataFrame) df :
  h !! dataset = Some df ->
  snd (powerbi_predict env dataset h) !! dataset = Some df.
Proof.
  intros Hd.
  set (X := fresh (dom h)). set (h1 := <[X := df]> h).
  set (out := fresh (dom h1)).
  assert (HX : X ≠ dataset).
  { intros HX. apply (is_fresh (dom h)). apply elem_of_dom.
    exists df. fold X. now rewrite HX. }
  assert (H1 : h1 !! dataset = Some df).
  { unfold h1. now rewrite lookup_insert_ne. }
  assert (Hout : out ≠ dataset).
  { intros Ho. apply (is_fresh (dom h1)). apply elem_of_dom.
    exists df. fold out. now rewrite Ho. }
  assert (H2 : forall d, <[out := d]> h1 !! dataset = Some df).
  { intros d. now rewrite lookup_insert_ne. }
  assert (Hset : forall name c d e h',
             py_setitem_array out name c (<[out := d]> h1) = (e, h') ->
             exists d', h' = <[out := d']> h1).
  { intros name c d e h'. unfold py_setitem_array.
    rewrite lookup_insert_eq.
    destruct (setitem_array d name c); intros [= <- <-].
    - now exists d.
    - eexists. apply insert_insert_eq. }
  unfold powerbi_predict.
  rewrite (py_bind_ok _ _ _ _ _ (df_copy_ok _ _ _ Hd)). fold X h1.
  rewrite (py_bind_ok _ _ h1 df h1) by (apply py_read_ok, lookup_insert_eq).
  apply py_bind_keeps; intros ? ? [= ? <-]; [exact H1|].
  apply py_bind_keeps; intros ? ? [= ? <-]; [exact H1|].
  rewrite (py_bind_ok _ _ _ _ _ (df_copy_ok _ _ _ H1)). fold out.
  apply py_bind_keeps; intros ? h3 E;
    destruct (Hset _ _ _ _ _ E) as [d3 ->]; [apply H2|].
  apply py_bind_keeps; intros ? ? [= ? <-]; [apply H2|].
  apply py_bind_keeps; intros ? h4 E4;
    destruct (Hset _ _ _ _ _ E4) as [d4 ->]; [apply H2|].
  rewrite (py_bind_ok _ _ _ d4 _) by (apply py_read_ok, lookup_insert_eq).
  apply py_bind_keeps; intros ? ? [= ? <-]; [apply H2|].
  erewrite py_bind_ok; cycle 1.
  { apply py_setitem_series_ok, lookup_insert_eq. }
  cbn. rewrite insert_insert_eq. apply H2.
Qed.
Lemma scored_fresh df pd_probs scores :
  "PD" ∉ columns df -> "Behavior_Score" ∉ columns df ->
  "Risk_Category" ∉ columns df ->
  scored df pd_probs scores
  = mkDF (nrows df)
         (cols df ++ [("PD", Float64 pd_probs);
                      ("Behavior_Score", Float64 scores);
                      ("Risk_Category", Object (map risk_label scores))]).
Proof.
  unfold columns. intros Hp Hb Hr.
  unfold scored, setitem_series. cbn [nrows cols]. f_equal.
  rewrite (assoc_set_fresh "PD") by exact Hp.
  rewrite (assoc_set_fresh "Behavior_Score").
  2:{ rewrite map_app. cbn. rewrite elem_of_app, list_elem_of_singleton.
      intros [H | H]; [now apply Hb | discriminate]. }
  rewrite (assoc_set_fresh "Risk_Category").
  2:{ rewrite !map_app. cbn.
      rewrite !elem_of_app, !list_elem_of_singleton.
      intros [[H | H] | H]; [now apply Hr | discriminate | discriminate]. }
  now rewrite <- !app_assoc.
Qed.

(** C9, as the claim states it, fails: a table that already has a column
    named [PD] comes back with that column overwritten by the predicted
    probabilities, and with two new columns, not three. *)
Lemma C9_existing_column_overwritten :
  exists out h' df',
    powerbi_predict constant_env 0%nat {[ 0%nat := table_with_pd ]}
    = (ok out, h') /\
    h' !! out = Some df' /\
    getitem table_with_pd "PD" = ok (Float64 [Finite 0.9%R]) /\
    getitem df' "PD" = ok (Float64 [Finite 0.2%R]) /\
    length (cols df') = 3%nat /\
    ~ augmented table_with_pd df'.
Proof.
  destruct (powerbi_predict_spec constant_env 0%nat
              {[ 0%nat := table_with_pd ]} table_with_pd
              [[CFloat (Finite 0.9%R)]] [(Finite 0.8%R, Finite 0.2%R)])
    as (scores & Hsc & Hrun);
    [apply lookup_singleton_eq | reflexivity | reflexivity | reflexivity |].
  cbn zeta in Hrun.
  eexists _, _, _. split; [exact Hrun|].
  split; [apply lookup_insert_eq|].
  split; [reflexivity|]. split; [reflexivity|]. split; [reflexivity|].
  intros (_ & c1 & c2 & c3 & Hcols). cbn in Hcols. discriminate Hcols.
Qed.

(** C9 (amended): for a table without columns named [PD],
    [Behavior_Score] or [Risk_Category], on which the scaler and the
    classifier return one pair of probabilities per row,
    [powerbi_predict] returns a new table: the input's columns, unchanged
    and in order, followed by the three columns [PD], [Behavior_Score] and
    [Risk_Category]; the input table, like every table that existed
    before the call, is unchanged. *)
Theorem C9_predict_augments env dataset (h : gmap loc DataFrame) df Xv probs :
  h !! dataset = Some df ->
  scale_values env (values df) = ok Xv ->
  predict_proba (_model env) Xv = ok probs ->
  length probs = nrows df ->
  "PD" ∉ columns df -> "Behavior_Score" ∉ columns df ->
  "Risk_Category" ∉ columns df ->
  exists out h' df' scores,
    powerbi_predict env dataset h = (ok out, h') /\
    h !! out = None /\
    h' !! out = Some df' /\
    augmented df df' /\
    mapM compute_score (map snd probs) = ok scores /\
    df' = mkDF (nrows df)
               (cols df ++ [("PD", Float64 (map snd probs));
                            ("Behavior_Score", Float64 scores);
                            ("Risk_Category",
                             Object (map risk_label scores))]) /\
    h' !! dataset = Some df /\
    (forall l d, h !! l = Some d -> h' !! l = Some d).
Proof.
  intros Hd Hs Hp Hlen Hn1 Hn2 Hn3.
  destruct (powerbi_predict_spec env dataset h df Xv probs Hd Hs Hp Hlen)
    as (scores & Hsc & Hrun).
  cbn zeta in Hrun.
  set (X := fresh (dom h)) in *. set (h1 := <[X := df]> h) in *.
  set (out := fresh (dom h1)) in *.
  assert (HX : h !! X = None).
  { apply not_elem_of_dom. apply is_fresh. }
  assert (Hout1 : h1 !! out = None).
  { apply not_elem_of_dom. apply is_fresh. }
  assert (Hout : h !! out = None).
  { destruct (decide (out = X)) as [-> | Hne]; [exact HX|].
    unfold h1 in Hout1. now rewrite lookup_insert_ne in Hout1. }
  assert (Hkeep : forall l d, h !! l = Some d ->
                         <[out := scored df (map snd probs) scores]> h1 !! l
                         = Some d).
  { intros l d Hl.
    rewrite lookup_insert_ne by (intros <-; congruence).
    unfold h1. rewrite lookup_insert_ne by (intros <-; congruence).
    exact Hl. }
  rewrite (scored_fresh df _ _ Hn1 Hn2 Hn3) in Hrun, Hkeep.
  eexists out, _, _, scores.
  split; [exact Hrun|]. split; [exact Hout|].
  split; [apply lookup_insert_eq|].
  split; [split; [reflexivity | now eexists _, _, _]|].
  split; [exact Hsc|]. split; [reflexivity|].
  split; [now apply Hkeep | exact Hkeep].
Qed.

Lemma C9_predict_augments_witness :
  exists out h' df' scores,
    powerbi_predict constant_env 0%nat {[ 0%nat := table_one_feature ]}
    = (ok out, h') /\
    ({[ 0%nat := table_one_feature ]} : gmap loc DataFrame) !! out = None /\
    h' !! out = Some df' /\
    augmented table_one_feature df' /\
    mapM compute_score [Finite 0.2%R] = ok scores /\
    df' = mkDF 1 [("feature_1", Float64 [Finite 0.12%R]);
                  ("PD", Float64 [Finite 0.2%R]);
                  ("Behavior_Score", Float64 scores);
                  ("Risk_Category", Object (map risk_label scores))] /\
    h' !! 0%nat = Some table_one_feature /\
    (forall l d,
        ({[ 0%nat := table_one_feature ]} : gmap loc DataFrame) !! l = Some d ->
        h' !! l = Some d).
Proof.
  apply (C9_predict_augments constant_env 0%nat
           {[ 0%nat := table_one_feature ]} table_one_feature
           [[CFloat (Finite 0.12%R)]] [(Finite 0.8%R, Finite 0.2%R)]).
  - apply lookup_singleton_eq.
  - reflexivity.
  - reflexivity.
  - reflexivity.
  - cbn. rewrite list_elem_of_singleton. discriminate.
  - cbn. rewrite list_elem_of_singleton. discriminate.
  - cbn. rewrite list_elem_of_singleton. discriminate.
Defined.
End ScoringPass.

(** ** The dashboard's column guard *)

Section Guard.
Import Dashboard Float.
Open Scope R_scope.

Lemma app_bind_inr {A B} (m : App A) (f : A -> App B) out a :
  m = (out, inr a) ->
  app_bind m f = ((out ++ fst (f a))%list, snd (f a)).
Proof. intros ->. cbn. now destruct (f a). Qed.

Lemma app_bind_inl {A B} (m : App A) (f : A -> App B) out e :
  m = (out, inl e) -> app_bind m f = (out, inl e).
Proof. now intros ->. Qed.

Lemma app_lift_ok {A} (a : A) : app_lift (ok a) = ([], inr a).
Proof. reflexivity. Qed.

Lemma never_stops_bind {A B} (m : App A) (f : A -> App B) :
  never_stops m -> (forall a, never_stops (f a)) -> never_stops (app_bind m f).
Proof.
  unfold never_stops. destruct m as [out [e|a]]; cbn; intros Hm Hf.
  - intros [= ->]. now apply Hm.
  - specialize (Hf a). now destruct (f a).
Qed.

Lemma never_stops_emit w : never_stops (emit w).
Proof. discriminate. Qed.

Lemma never_stops_ret {A} (a : A) : never_stops (app_ret a).
Proof. discriminate. Qed.

Lemma never_stops_lift {A} (r : result A) : never_stops (app_lift r).
Proof. destruct r; discriminate. Qed.

Lemma never_stops_iter {A} (f : A -> App unit) l :
  (forall x, never_stops (f x)) -> never_stops (app_iter f l).
Proof.
  intros Hf. induction l as [|x l IH]; cbn; [apply never_stops_ret|].
  apply never_stops_bind; [apply Hf | intros _; exact IH].
Qed.

Create HintDb stops.
#[local] Hint Resolve never_stops_emit never_stops_ret never_stops_lift : stops.

Lemma never_stops_sidebar s df : never_stops (sidebar s df).
Proof.
  unfold sidebar, sidebar_form, sidebar_predict.
  repeat (apply never_stops_bind; [|intros ?]); auto with stops.
  - apply never_stops_iter. intros x. destruct (is_numeric (snd x)); auto with stops.
  - destruct (predict_clicked s); auto with stops.
    repeat (apply never_stops_bind; [|intros ?]); auto with stops.
Qed.

Lemma never_stops_main df : never_stops (main_section df).
Proof.
  unfold main_section.
  repeat (apply never_stops_bind; [|intros ?]); auto with stops.
Qed.

Lemma assoc_get_set_ne name n c cs :
  name <> n -> assoc_get n (assoc_set name c cs) = assoc_get n cs.
Proof.
  intros Hne. induction cs as [|[m c0] cs IH]; cbn.
  - destruct (String.eqb name n) eqn:E; [|reflexivity].
    apply String.eqb_eq in E. contradiction.
  - destruct (String.eqb m name) eqn:E; cbn.
    + apply String.eqb_eq in E. subst m.
      destruct (String.eqb name n) eqn:E'; [|reflexivity].
      apply String.eqb_eq in E'. contradiction.
    + destruct (String.eqb m n); [reflexivity | exact IH].
Qed.

Lemma series_mean_numeric c :
  is_numeric c = true -> exists m, series_mean c = ok m.
Proof.
  unfold series_mean, series_floats.
  destruct c as [l | l | l]; cbn; intros H; [| |discriminate].
  - rewrite mapM_cell_float. cbn. now eexists.
  - assert (E : mapM cell_float (map CInt l)
                = ok (map (fun z => Finite (IZR z)) l)).
    { clear H. induction l as [|z l IH]; cbn; [reflexivity|].
      now rewrite IH. }
    rewrite E. cbn. now eexists.
Qed.

Lemma adjust_pd_ok inputs nums x :
  (forall nc, In nc nums -> is_numeric (snd nc) = true) ->
  exists r, adjust_pd inputs nums x = ok r.
Proof.
  revert x. induction nums as [|[num c] nums IH]; cbn; intros x H.
  - now eexists.
  - destruct (series_mean_numeric c) as [m ->]; [apply (H (num, c)); now left|].
    cbn. apply IH. intros nc Hin. apply H. now right.
Qed.

Lemma dash_score_after_sidebar_clamp x :
  exists sc, calculate_behavior_score (sidebar_clamp x) = ok sc.
Proof.
  destruct x as [p| | |].
  - rewrite dash_sidebar_clamp_finite. eexists. apply dash_score_finite.
    unfold Rmax, Rmin. destruct (Rle_dec p 0.99); float_dec.
  - assert (E : sidebar_clamp PosInf = Finite 0.99).
    { unfold sidebar_clamp, py_max, py_min, gtb, ltb. float_dec. reflexivity. }
    rewrite E. eexists. apply dash_score_finite. lra.
  - assert (E : sidebar_clamp NegInf = Finite 0.01).
    { unfold sidebar_clamp, py_max, py_min, gtb, ltb. reflexivity. }
    rewrite E. eexists. apply dash_score_finite. lra.
  - now eexists.
Qed.

Lemma sidebar_completes s df pds :
  getitem df "PD" = ok (Float64 pds) ->
  snd (sidebar s df) = inr tt.
Proof.
  intros Hpd. unfold sidebar.
  assert (Hform : snd (sidebar_form df) = inr tt).
  { unfold sidebar_form. cbn.
    induction (feature_cols df) as [|nc l IH]; [reflexivity|].
    cbn. destruct (is_numeric (snd nc)); cbn;
      destruct (app_iter _ l) as [o r]; cbn in *; now subst. }
  destruct (sidebar_form df) as [o1 r1]. cbn in Hform. subst r1. cbn.
  destruct (predict_clicked s); [|reflexivity].
  unfold sidebar_predict. rewrite Hpd. cbn [rbind ok].
  unfold series_mean at 1. rewrite series_floats_float64. cbn [rbind ok app_lift app_bind].
  destruct (adjust_pd_ok (number_input s)
              (List.filter (fun nc => is_numeric (snd nc)) (feature_cols df))
              (nanmean pds)) as [r ->].
  { intros nc Hin. now apply filter_In in Hin. }
  cbn [app_lift ok app_bind].
  destruct (dash_score_after_sidebar_clamp r) as [sc ->].
  reflexivity.
Qed.

Lemma dash_scores_total pds :
  Forall (fun x => exists p, x = Finite p /\ 0 < p < 1) pds ->
  exists scores, mapM calculate_behavior_score pds = ok scores.
Proof.
  induction 1 as [|x l (p & -> & Hp) _ [scores IH]]; cbn; [now eexists|].
  rewrite (dash_score_finite p Hp). cbn. rewrite IH. cbn. now eexists.
Qed.

Lemma score_table_ok df pds scores :
  getitem df "PD" = ok (Float64 pds) ->
  mapM calculate_behavior_score pds = ok scores ->
  score_table df
  = ok (setitem_series
          (setitem_series df "Behavior_Score" (Float64 scores))
          "Risk_Category" (Object (map risk_category scores))).
Proof.
  intros Hpd Hsc. unfold score_table. rewrite Hpd. cbn [rbind ok].
  rewrite series_floats_float64. cbn [rbind ok]. rewrite Hsc. cbn [rbind ok].
  unfold getitem. cbn [cols setitem_series]. rewrite assoc_get_set_eq.
  cbn [rbind ok]. now rewrite series_floats_float64.
Qed.

Lemma main_section_completes df pds scores :
  getitem df "PD" = ok (Float64 pds) ->
  mapM calculate_behavior_score pds = ok scores ->
  exists df' out,
    score_table df = ok df' /\
    main_section df = (out, inr tt) /\
    st_download_button df' ∈ out /\
    getitem df' "PD" = ok (Float64 pds) /\
    getitem df' "Behavior_Score" = ok (Float64 scores) /\
    getitem df' "Risk_Category" = ok (Object (map risk_category scores)).
Proof.
  intros Hpd Hsc.
  pose proof (score_table_ok df pds scores Hpd Hsc) as Hst.
  set (df' := setitem_series _ _ _) in Hst.
  assert (H1 : getitem df' "PD" = ok (Float64 pds)).
  { unfold getitem in *. unfold df'. cbn [cols setitem_series].
    rewrite !assoc_get_set_ne by discriminate. exact Hpd. }
  assert (H2 : getitem df' "Behavior_Score" = ok (Float64 scores)).
  { unfold getitem, df'. cbn [cols setitem_series].
    rewrite assoc_get_set_ne by discriminate.
    now rewrite assoc_get_set_eq. }
  assert (H3 : getitem df' "Risk_Category"
               = ok (Object (map risk_category scores))).
  { unfold getitem, df'. cbn [cols setitem_series].
    now rewrite assoc_get_set_eq. }
  clearbody df'.
  exists df'. eexists. split; [exact Hst|].
  split; [|split; [|now split]].
  - unfold main_section. rewrite Hst. cbn -[getitem series_mean].
    rewrite H1, H2, H3. cbn [rbind ok]. unfold series_mean.
    rewrite !series_floats_float64. cbn. reflexivity.
  - cbn. rewrite !elem_of_cons. tauto.
Qed.

Lemma dashboard_guard_stops s df :
  uploaded_file s = Some df -> "PD" ∉ columns df ->
  dashboard s
  = ([st_set_page_config; st_header; st_file_uploader; st_sidebar_header;
      st_error "CSV must contain a 'PD' column!"], inl Stopped).
Proof.
  intros Hup Hpd. unfold dashboard, pd_column_guard. rewrite Hup.
  rewrite bool_decide_eq_false_2 by exact Hpd. reflexivity.
Qed.

Lemma dashboard_guard_passes s df :
  uploaded_file s = Some df -> "PD" ∈ columns df ->
  dashboard s
  = app_bind preamble (fun _ =>
    app_bind (app_bind (sidebar s df) (fun _ => main_section df))
             (fun _ => emit st_footer)).
Proof.
  intros Hup Hpd. unfold dashboard, pd_column_guard. rewrite Hup.
  rewrite bool_decide_eq_true_2 by exact Hpd.
  do 2 f_equal. unfold app_ret. cbn [app_bind].
  now destruct (app_bind (sidebar s df) _).
Qed.

(** C8: when the uploaded table has no column named [PD], the run
    renders the error message and stops there: nothing after the guard is
    rendered, so no score and no category is computed.  When the column
    is present the run is never stopped, and for a numeric [PD] column
    with values strictly between 0 and 1 it completes: the scored table,
    with its [Behavior_Score] and [Risk_Category] columns, is offered for
    download. *)
Theorem C8_pd_column_guard (s : Session) (df : DataFrame) :
  uploaded_file s = Some df ->
  ("PD" ∉ columns df ->
   dashboard s
   = ([st_set_page_config; st_header; st_file_uploader; st_sidebar_header;
       st_error "CSV must contain a 'PD' column!"], inl Stopped)) /\
  ("PD" ∈ columns df ->
   never_stops (dashboard s) /\
   forall pds,
     getitem df "PD" = ok (Float64 pds) ->
     Forall (fun x => exists p, x = Finite p /\ 0 < p < 1) pds ->
     exists df' scores,
       score_table df = ok df' /\
       snd (dashboard s) = inr tt /\
       st_download_button df' ∈ fst (dashboard s) /\
       mapM calculate_behavior_score pds = ok scores /\
       getitem df' "Behavior_Score" = ok (Float64 scores) /\
       getitem df' "Risk_Category"
       = ok (Object (map risk_category scores))).
Proof.
  intros Hup. split; [now apply dashboard_guard_stops|].
  intros Hpd. rewrite (dashboard_guard_passes s df Hup Hpd). split.
  { apply never_stops_bind; [|intros _].
    - unfold preamble.
      repeat (apply never_stops_bind; [|intros ?]); auto with stops.
    - apply never_stops_bind; [|intros; auto with stops].
      apply never_stops_bind;
        [apply never_stops_sidebar | intros; apply never_stops_main]. }
  intros pds Hcol Hrange.
  destruct (dash_scores_total pds Hrange) as [scores Hsc].
  destruct (main_section_completes df pds scores Hcol Hsc)
    as (df' & out & Hst & Hmain & Hin & _ & Hb & Hr).
  exists df', scores. split; [exact Hst|].
  pose proof (sidebar_completes s df pds Hcol) as Hside.
  destruct (sidebar s df) as [o1 r1]. cbn in Hside. subst r1.
  rewrite Hmain. cbn.
  split; [reflexivity|]. split; [|now split].
  rewrite !elem_of_cons, !elem_of_app. right. right. right. right. left. now right.
Qed.

Lemma C8_pd_column_guard_witness :
  ("PD" ∉ columns table_with_pd ->
   dashboard idle_session
   = ([st_set_page_config; st_header; st_file_uploader; st_sidebar_header;
       st_error "CSV must contain a 'PD' column!"], inl Stopped)) /\
  ("PD" ∈ columns table_with_pd ->
   never_stops (dashboard idle_session) /\
   forall pds,
     getitem table_with_pd "PD" = ok (Float64 pds) ->
     Forall (fun x => exists p, x = Finite p /\ 0 < p < 1) pds ->
     exists df' scores,
       score_table table_with_pd = ok df' /\
       snd (dashboard idle_session) = inr tt /\
       st_download_button df' ∈ fst (dashboard idle_session) /\
       mapM calculate_behavior_score pds = ok scores /\
       getitem df' "Behavior_Score" = ok (Float64 scores) /\
       getitem df' "Risk_Category"
       = ok (Object (map risk_category scores))).
Proof. apply (C8_pd_column_guard idle_session table_with_pd). reflexivity. Defined.
End Guard.

(** * Further properties *)

(** ** Calibration of the BI script's transform *)

Section Calibration.
Open Scope R_scope.
Import Float.

(** For [0 < c < 1] and [0 < t], the odds of [c] are at most [t] exactly
    when [c <= t / (1 + t)]. *)
Lemma odds_le_iff (c t : R) :
  0 < c < 1 -> 0 < t -> (c / (1 - c) <= t <-> c <= t / (1 + t)).
Proof.
  intros Hc Ht.
  assert (H1 : 0 < 1 - c) by lra. assert (H2 : 0 < 1 + t) by lra.
  split; intros H.
  - apply Rmult_le_reg_r with (1 + t); [exact H2|].
    unfold Rdiv. rewrite Rmult_assoc, Rinv_l, Rmult_1_r by lra.
    apply (Rmult_le_compat_r (1 - c)) in H; [|lra].
    unfold Rdiv in H. rewrite Rmult_assoc, Rinv_l, Rmult_1_r in H by lra.
    lra.
  - apply Rmult_le_reg_r with (1 - c); [exact H1|].
    unfold Rdiv. rewrite Rmult_assoc, Rinv_l, Rmult_1_r by lra.
    apply (Rmult_le_compat_r (1 + t)) in H; [|lra].
    unfold Rdiv in H. rewrite Rmult_assoc, Rinv_l, Rmult_1_r in H by lra.
    lra.
Qed.

Lemma ln_le_iff (x y : R) : 0 < x -> 0 < y -> (ln x <= ln y <-> x <= y).
Proof.
  intros Hx Hy. split; intros H.
  - destruct H as [H | H]; [left; now apply ln_lt_inv | right; now apply ln_inv].
  - destruct H as [H | ->]; [left; now apply ln_increasing | right; reflexivity].
Qed.

(** The score of a clamped probability is at least [600 + 20 * k] exactly
    when its odds are at most [20 / 2^k]. *)
Lemma pbi_score_ge_iff (c t : R) (k : Z) :
  0.001 <= c <= 0.999 -> 0 < t -> t * IZR (2 ^ k) = 20 -> (0 <= k)%Z ->
  (600 + 20 * IZR k <= PowerBI.A - PowerBI.B * ln (c / (1 - c))
   <-> c <= t / (1 + t)).
Proof.
  intros Hc Ht Htk Hk.
  assert (Ho : 0 < c / (1 - c)) by (apply odds_pos; lra).
  pose proof ln_2_pos as L.
  rewrite <- (odds_le_iff c t) by lra.
  rewrite <- (ln_le_iff (c / (1 - c)) t) by assumption.
  assert (Hln : ln t = ln 20 - IZR k * ln 2).
  { rewrite <- (ln_pow_Z 2 k) by lia. rewrite <- Htk.
    assert (0 < IZR (2 ^ k)) by (apply IZR_lt, Z.pow_pos_nonneg; lia).
    rewrite ln_mult by assumption. ring. }
  rewrite Hln, pbi_A_eq, pbi_B_mul.
  set (x := ln (c / (1 - c))). 
  replace (600 + 20 * (ln 20 / ln 2) - 20 * (x / ln 2))
    with (600 + 20 * ((ln 20 - x) / ln 2)) by (field; lra).
  split; intros H.
  - assert (IZR k <= (ln 20 - x) / ln 2) by lra.
    assert (IZR k * ln 2 <= ln 20 - x).
    { apply (Rmult_le_compat_r (ln 2)) in H0; [|lra].
      unfold Rdiv in H0. rewrite Rmult_assoc, Rinv_l, Rmult_1_r in H0 by lra.
      exact H0. }
    lra.
  - assert (IZR k <= (ln 20 - x) / ln 2).
    { apply Rmult_le_reg_r with (ln 2); [exact L|].
      unfold Rdiv. rewrite Rmult_assoc, Rinv_l, Rmult_1_r by lra. lra. }
    lra.
Qed.

(** Over exact reals the cut points of the BI script's label, as a function
    of the probability, are 5/13 and 20/21. *)
Lemma pbi_label_cut_points (p : R) :
  exists s,
    PowerBI.compute_score (Finite p) = ok (Finite s) /\
    (PowerBI.risk_label (Finite s) = "Low" <-> p <= 5 / 13) /\
    (PowerBI.risk_label (Finite s) = "Medium" <-> 5 / 13 < p <= 20 / 21) /\
    (PowerBI.risk_label (Finite s) = "High" <-> 20 / 21 < p).
Proof.
  set (c := Rmax 0.001 (Rmin 0.999 p)).
  assert (Hc : 0.001 <= c <= 0.999).
  { unfold c, Rmax, Rmin. destruct (Rle_dec 0.999 p); float_dec. }
  assert (H5 : c <= 5 / 13 <-> p <= 5 / 13).
  { unfold c, Rmax, Rmin. destruct (Rle_dec 0.999 p); float_dec. }
  assert (H20 : c <= 20 / 21 <-> p <= 20 / 21).
  { unfold c, Rmax, Rmin. destruct (Rle_dec 0.999 p); float_dec. }
  exists (PowerBI.A - PowerBI.B * ln (c / (1 - c))).
  split; [apply pbi_score_clamped; [apply pbi_clamp_finite | exact Hc]|].
  pose proof (pbi_score_ge_iff c (5 / 8) 5 Hc) as Hlow.
  pose proof (pbi_score_ge_iff c 20 0 Hc) as Hmed.
  replace (5 / 8 / (1 + 5 / 8)) with (5 / 13) in Hlow by lra.
  replace (20 / (1 + 20)) with (20 / 21) in Hmed by lra.
  replace (600 + 20 * 5) with 700 in Hlow by lra.
  replace (600 + 20 * 0) with 600 in Hmed by lra.
  assert (Hl : 700 <= PowerBI.A - PowerBI.B * ln (c / (1 - c)) <-> p <= 5 / 13).
  { rewrite <- H5. apply Hlow; [lra | | lia].
    change (2 ^ 5)%Z with 32%Z. lra. }
  assert (Hm : 600 <= PowerBI.A - PowerBI.B * ln (c / (1 - c)) <-> p <= 20 / 21).
  { rewrite <- H20. apply Hmed; [lra | | lia].
    change (2 ^ 0)%Z with 1%Z. lra. }
  destruct (pbi_risk_label_buckets (PowerBI.A - PowerBI.B * ln (c / (1 - c))))
    as (Bh & Bm & Bl).
  rewrite Bh, Bm, Bl.
  repeat split; intros; try lra;
    try (apply Hl; lra); try (apply Hm; lra).
  all: try (apply Rnot_le_lt; intros Hn; apply Hl in Hn; lra).
  all: try (apply Rnot_le_lt; intros Hn; apply Hm in Hn; lra).
  all: try (apply Rnot_le_lt; intros Hn; apply Hl in Hn; destruct H; lra).
Qed.
End Calibration.

(** ** Shape of the two transforms *)

Section TransformShape.
Open Scope R_scope.
Import Float.

(** [999^400 < 2^3988]: [log2 999 < 9.97]. *)
Lemma log2_999_bound : ln 999 / ln 2 < 9.97.
Proof.
  apply div_ln2_lt.
  assert (H : 400 * ln 999 < 3988 * ln 2).
  { apply (ln_pow_lt 999 2 400 3988); [lia .. | now vm_compute]. }
  lra.
Qed.

Lemma pbi_score_extremes :
  (forall p, p <= 0.001 ->
     PowerBI.compute_score (Finite p)
     = ok (Finite (PowerBI.A + PowerBI.B * ln 999))) /\
  (forall p, 0.999 <= p ->
     PowerBI.compute_score (Finite p)
     = ok (Finite (PowerBI.A - PowerBI.B * ln 999))) /\
  (forall x, exists s,
      PowerBI.compute_score x = ok (Finite s) /\
      PowerBI.A - PowerBI.B * ln 999 <= s <= PowerBI.A + PowerBI.B * ln 999) /\
  487 < PowerBI.A - PowerBI.B * ln 999 /\
  PowerBI.A + PowerBI.B * ln 999 < 886.
Proof.
  split; [|split; [|split]].
  - intros p Hp.
    rewrite (pbi_score_clamped (Finite p) 0.001); [| |lra].
    + do 2 f_equal. replace (0.001 / (1 - 0.001)) with (/ 999) by lra.
      rewrite ln_Rinv by lra. ring.
    + rewrite pbi_clamp_finite. f_equal.
      unfold Rmax, Rmin. destruct (Rle_dec 0.999 p); float_dec.
  - intros p Hp.
    rewrite (pbi_score_clamped (Finite p) 0.999); [| |lra].
    + do 2 f_equal. replace (0.999 / (1 - 0.999)) with 999 by lra.
      reflexivity.
    + rewrite pbi_clamp_finite. f_equal.
      unfold Rmax, Rmin. destruct (Rle_dec 0.999 p); float_dec.
  - intros x. destruct (pbi_clamp_range x) as (c & Hc & Hr).
    eexists. split; [now apply pbi_score_clamped with (c := c)|].
    pose proof (log_odds_clamped c Hr) as [Hlo Hhi].
    pose proof pbi_B_pos. nra.
  - rewrite pbi_A_eq, pbi_B_mul.
    pose proof log2_20_bounds. pose proof log2_999_bound. lra.
Qed.

(** The BI script's score is constant at and below PD = 0.001 and at and
    above PD = 0.999; these two values, about 885.7 and 487.2, bound every
    score. *)
Theorem pbi_score_saturates :
  (forall p, p <= 0.001 ->
     PowerBI.compute_score (Finite p)
     = ok (Finite (PowerBI.A + PowerBI.B * ln 999))) /\
  (forall p, 0.999 <= p ->
     PowerBI.compute_score (Finite p)
     = ok (Finite (PowerBI.A - PowerBI.B * ln 999))) /\
  (forall x, exists s,
      PowerBI.compute_score x = ok (Finite s) /\
      PowerBI.A - PowerBI.B * ln 999 <= s <= PowerBI.A + PowerBI.B * ln 999) /\
  487 < PowerBI.A - PowerBI.B * ln 999 /\
  PowerBI.A + PowerBI.B * ln 999 < 886.
Proof. exact pbi_score_extremes. Qed.

(** A probability that is NaN passes the clamp as 0.999: [min(0.999, nan)]
    keeps its first argument. *)
Theorem pbi_nan_scored_as_upper_clamp :
  PowerBI.clamp NaN = Finite 0.999 /\
  PowerBI.compute_score NaN = PowerBI.compute_score (Finite 0.999) /\
  exists s, PowerBI.compute_score NaN = ok (Finite s) /\
            s < 600 /\ PowerBI.risk_label (Finite s) = "High".
Proof.
  assert (Hc : PowerBI.clamp NaN = Finite 0.999).
  { unfold PowerBI.clamp, py_max, py_min, gtb, ltb. float_dec. reflexivity. }
  assert (Hs : PowerBI.compute_score NaN
               = ok (Finite (PowerBI.A - PowerBI.B * ln 999))).
  { rewrite (pbi_score_clamped NaN 0.999 Hc) by lra.
    do 2 f_equal. replace (0.999 / (1 - 0.999)) with 999 by lra. reflexivity. }
  split; [exact Hc|]. split.
  - rewrite Hs. symmetry. apply pbi_score_extremes. lra.
  - eexists. split; [exact Hs|].
    assert (Hlt : PowerBI.A - PowerBI.B * ln 999 < 600).
    { rewrite pbi_A_eq, pbi_B_mul. pose proof log2_20_bounds as H20.
      assert (H : 9 < ln 999 / ln 2).
      { apply lt_div_ln2.
        assert (H : 9 * ln 2 < 1 * ln 999).
        { apply (ln_pow_lt 2 999 9 1); [lia .. | now vm_compute]. }
        lra. }
      lra. }
    split; [exact Hlt|]. now apply pbi_risk_label_buckets.
Qed.

(** In the dashboard a PD that is not strictly between 0 and 1, and is not
    exactly 1, gets a score that is not a finite number, and the label
    "Low Risk". *)
Theorem dash_invalid_pd_low_risk (x : np_float) :
  x <> Finite 1 ->
  (forall p, x = Finite p -> p <= 0 \/ 1 < p) ->
  exists s,
    Dashboard.calculate_behavior_score x = ok s /\
    (s = NaN \/ s = PosInf) /\
    Dashboard.risk_category s = "Low Risk".
Proof.
  intros H1 Hout. pose proof dash_B_pos as HB.
  destruct x as [p| | |].
  - destruct (Hout p eq_refl) as [Hp | Hp].
    + destruct Hp as [Hp | ->].
      * exists NaN. split; [|split; [now left | reflexivity]].
        unfold Dashboard.calculate_behavior_score.
        rewrite dash_odds_finite by lra. cbn.
        assert (p / (1 - p) < 0).
        { unfold Rdiv. apply Ropp_lt_cancel. rewrite Ropp_0.
          rewrite Ropp_mult_distr_l. apply Rmult_lt_0_compat; [lra|].
          apply Rinv_0_lt_compat. lra. }
        float_dec. reflexivity.
      * exists PosInf. split; [|split; [now right | reflexivity]].
        unfold Dashboard.calculate_behavior_score.
        rewrite dash_odds_finite by lra. cbn.
        replace (0 / (1 - 0)) with 0 by lra.
        float_dec. cbn. unfold scale_inf. float_dec. reflexivity.
    + exists NaN. split; [|split; [now left | reflexivity]].
      unfold Dashboard.calculate_behavior_score.
      rewrite dash_odds_finite by lra. cbn.
      assert (p / (1 - p) < 0).
      { replace (p / (1 - p)) with (- (p / (p - 1))) by (field; lra).
        apply Ropp_lt_cancel. rewrite Ropp_0, Ropp_involutive.
        apply Rdiv_lt_0_compat; lra. }
      float_dec. reflexivity.
  - exists NaN. repeat split; now left.
  - exists NaN. repeat split; now left.
  - exists NaN. repeat split; now left.
Qed.

Lemma dash_invalid_pd_low_risk_witness :
  exists s,
    Dashboard.calculate_behavior_score (Finite 1.5) = ok s /\
    (s = NaN \/ s = PosInf) /\
    Dashboard.risk_category s = "Low Risk".
Proof.
  apply (dash_invalid_pd_low_risk (Finite 1.5)).
  - intros [= H]. lra.
  - intros p [= <-]. right. lra.
Defined.

(** The constants that the BI script computes at import time and the
    constants that the dashboard hard-codes differ, as real numbers, by
    less than 6e-14 ([A]) and 2e-15 ([B]). *)
Theorem recomputed_constants_match :
  Rabs (PowerBI.A - Dashboard.A) < 6 / 10 ^ 14 /\
  Rabs (PowerBI.B - Dashboard.B) < 2 / 10 ^ 15.
Proof. exact constants_agree. Qed.



(** Outside the scores from 580 up to 600 the two labellers put a score in
    corresponding buckets. *)
Theorem labels_correspond (s : R) :
  s < 580 \/ 600 <= s ->
  (PowerBI.risk_label (Finite s) = "High"
   <-> Dashboard.risk_category (Finite s) = "High Risk") /\
  (PowerBI.risk_label (Finite s) = "Medium"
   <-> Dashboard.risk_category (Finite s) = "Medium Risk") /\
  (PowerBI.risk_label (Finite s) = "Low"
   <-> Dashboard.risk_category (Finite s) = "Low Risk").
Proof.
  intros Hs.
  destruct (pbi_risk_label_buckets s) as (-> & -> & ->).
  destruct (dash_risk_category_buckets s) as (-> & -> & ->).
  lra.
Qed.

Lemma labels_correspond_witness :
  (PowerBI.risk_label (Finite 650) = "High"
   <-> Dashboard.risk_category (Finite 650) = "High Risk") /\
  (PowerBI.risk_label (Finite 650) = "Medium"
   <-> Dashboard.risk_category (Finite 650) = "Medium Risk") /\
  (PowerBI.risk_label (Finite 650) = "Low"
   <-> Dashboard.risk_category (Finite 650) = "Low Risk").
Proof. apply (labels_correspond 650). right. lra. Defined.
End TransformShape.

(** ** More on the BI script's scoring pass *)

Section ScoringPassMore.
Import PowerBI.

Lemma fresh_not_in_heap (h : gmap loc DataFrame) l d :
  h !! l = Some d -> fresh (dom h) <> l.
Proof.
  intros Hl Heq. apply (is_fresh (dom h)). rewrite Heq.
  apply elem_of_dom. now exists d.
Qed.

(** Whatever the outcome of the call, every table that existed before it
    is unchanged after it. *)
Theorem powerbi_predict_frame env dataset (h : gmap loc DataFrame) l d :
  h !! l = Some d ->
  snd (powerbi_predict env dataset h) !! l = Some d.
Proof.
  intros Hl.
  destruct (h !! dataset) as [df|] eqn:Hd.
  2:{ unfold powerbi_predict, py_bind, df_copy. now rewrite Hd. }
  set (X := fresh (dom h)). set (h1 := <[X := df]> h).
  set (out := fresh (dom h1)).
  assert (HX : X <> l) by (apply (fresh_not_in_heap h l d Hl)).
  assert (HXd : X <> dataset) by (apply (fresh_not_in_heap h dataset df Hd)).
  assert (H1 : h1 !! l = Some d).
  { unfold h1. now rewrite lookup_insert_ne. }
  assert (H1d : h1 !! dataset = Some df).
  { unfold h1. now rewrite lookup_insert_ne. }
  assert (Hout : out <> l) by (apply (fresh_not_in_heap h1 l d H1)).
  assert (H2 : forall d', <[out := d']> h1 !! l = Some d).
  { intros d'. now rewrite lookup_insert_ne. }
  assert (Hset : forall name c d' e h',
             py_setitem_array out name c (<[out := d']> h1) = (e, h') ->
             exists d'', h' = <[out := d'']> h1).
  { intros name c d' e h'. unfold py_setitem_array.
    rewrite lookup_insert_eq.
    destruct (setitem_array d' name c); intros [= <- <-].
    - now exists d'.
    - eexists. apply insert_insert_eq. }
  unfold powerbi_predict.
  rewrite (py_bind_ok _ _ _ _ _ (df_copy_ok _ _ _ Hd)). fold X h1.
  rewrite (py_bind_ok _ _ h1 df h1) by (apply py_read_ok, lookup_insert_eq).
  apply py_bind_keeps; intros ? ? [= ? <-]; [exact H1|].
  apply py_bind_keeps; intros ? ? [= ? <-]; [exact H1|].
  rewrite (py_bind_ok _ _ _ _ _ (df_copy_ok _ _ _ H1d)). fold out.
  apply py_bind_keeps; intros ? h3 E;
    destruct (Hset _ _ _ _ _ E) as [d3 ->]; [apply H2|].
  apply py_bind_keeps; intros ? ? [= ? <-]; [apply H2|].
  apply py_bind_keeps; intros ? h4 E4;
    destruct (Hset _ _ _ _ _ E4) as [d4 ->]; [apply H2|].
  rewrite (py_bind_ok _ _ _ d4 _) by (apply py_read_ok, lookup_insert_eq).
  apply py_bind_keeps; intros ? ? [= ? <-]; [apply H2|].
  erewrite py_bind_ok; cycle 1.
  { apply py_setitem_series_ok, lookup_insert_eq. }
  cbn. rewrite insert_insert_eq. apply H2.
Qed.

Lemma powerbi_predict_frame_witness :
  snd (powerbi_predict constant_env 0%nat {[ 0%nat := table_with_pd ]})
    !! 0%nat = Some table_with_pd.
Proof.
  apply (powerbi_predict_frame constant_env 0%nat
           {[ 0%nat := table_with_pd ]} 0%nat table_with_pd).
  apply lookup_singleton_eq.
Defined.

(** An exception of the scaler or of the classifier leaves the call
    unchanged: there is no handler. *)
Theorem powerbi_predict_propagates env dataset (h : gmap loc DataFrame) df e :
  h !! dataset = Some df ->
  scale_values env (values df) = raise e \/
  (exists Xv, scale_values env (values df) = ok Xv /\
              predict_proba (_model env) Xv = raise e) ->
  fst (powerbi_predict env dataset h) = raise e.
Proof.
  intros Hd Hfail. unfold powerbi_predict.
  rewrite (py_bind_ok _ _ _ _ _ (df_copy_ok _ _ _ Hd)).
  erewrite py_bind_ok by (apply py_read_ok, lookup_insert_eq).
  destruct Hfail as [Hs | (Xv & Hs & Hp)].
  - unfold py_bind, py_lift. now rewrite Hs.
  - rewrite Hs. erewrite py_bind_ok by reflexivity.
    unfold py_bind, py_lift. now rewrite Hp.
Qed.

Lemma powerbi_predict_propagates_witness :
  fst (powerbi_predict failing_env 0%nat {[ 0%nat := table_with_pd ]})
  = raise ValueError.
Proof.
  apply (powerbi_predict_propagates failing_env 0%nat
           {[ 0%nat := table_with_pd ]} table_with_pd ValueError).
  - apply lookup_singleton_eq.
  - right. eexists. split; reflexivity.
Defined.

Lemma compute_scores_range (ps scores : list np_float) :
  mapM compute_score ps = ok scores ->
  Forall (fun sc => exists s, sc = Finite s /\ (300 <= s <= 900)%R) scores.
Proof.
  revert scores. induction ps as [|p ps IH]; cbn; intros scores H.
  - injection H as <-. constructor.
  - destruct (pbi_score_range p) as (s & Hs & Hr). rewrite Hs in H. cbn in H.
    destruct (mapM compute_score ps) as [|ys]; [discriminate|]. cbn in H.
    injection H as <-. constructor; [now exists s | now apply IH].
Qed.

Lemma getitem_scored_other df pd_probs scores n :
  n <> "PD" -> n <> "Behavior_Score" -> n <> "Risk_Category" ->
  getitem (scored df pd_probs scores) n = getitem df n.
Proof.
  intros H1 H2 H3. unfold getitem, scored, setitem_series. cbn [cols].
  now rewrite !assoc_get_set_ne by congruence.
Qed.

(** For every table on which the classifier answers with one pair per row,
    the returned table carries the predicted probabilities, a score in
    [300, 900] for each of them, and the label of each score; its other
    columns are those of the input. *)
Theorem powerbi_predict_output env dataset (h : gmap loc DataFrame) df Xv probs :
  h !! dataset = Some df ->
  scale_values env (values df) = ok Xv ->
  predict_proba (_model env) Xv = ok probs ->
  length probs = nrows df ->
  exists out h' df' scores,
    powerbi_predict env dataset h = (ok out, h') /\
    h' !! out = Some df' /\
    nrows df' = nrows df /\
    getitem df' "PD" = ok (Float64 (map snd probs)) /\
    getitem df' "Behavior_Score" = ok (Float64 scores) /\
    getitem df' "Risk_Category" = ok (Object (map risk_label scores)) /\
    length scores = nrows df /\
    Forall (fun sc => exists s, sc = Finite s /\ (300 <= s <= 900)%R) scores /\
    (forall n, n <> "PD" -> n <> "Behavior_Score" -> n <> "Risk_Category" ->
               getitem df' n = getitem df n).
Proof.
  intros Hd Hs Hp Hlen.
  destruct (powerbi_predict_spec env dataset h df Xv probs Hd Hs Hp Hlen)
    as (scores & Hsc & Hrun).
  cbn zeta in Hrun.
  eexists _, _, _, scores. split; [exact Hrun|].
  split; [apply lookup_insert_eq|]. split; [reflexivity|].
  split.
  { unfold getitem, scored, setitem_series. cbn [cols].
    rewrite !assoc_get_set_ne by discriminate. now rewrite assoc_get_set_eq. }
  split.
  { unfold getitem, scored, setitem_series. cbn [cols].
    rewrite assoc_get_set_ne by discriminate. now rewrite assoc_get_set_eq. }
  split.
  { unfold getitem, scored, setitem_series. cbn [cols].
    now rewrite assoc_get_set_eq. }
  split; [now rewrite (mapM_length _ _ _ Hsc), length_map|].
  split; [now apply compute_scores_range with (ps := map snd probs)|].
  intros n. apply getitem_scored_other.
Qed.

Lemma powerbi_predict_output_witness :
  exists out h' df' scores,
    powerbi_predict constant_env 0%nat {[ 0%nat := table_with_pd ]}
    = (ok out, h') /\
    h' !! out = Some df' /\
    nrows df' = 1%nat /\
    getitem df' "PD" = ok (Float64 [Finite 0.2%R]) /\
    getitem df' "Behavior_Score" = ok (Float64 scores) /\
    getitem df' "Risk_Category" = ok (Object (map risk_label scores)) /\
    length scores = 1%nat /\
    Forall (fun sc => exists s, sc = Finite s /\ (300 <= s <= 900)%R) scores /\
    (forall n, n <> "PD" -> n <> "Behavior_Score" -> n <> "Risk_Category" ->
               getitem df' n = getitem table_with_pd n).
Proof.
  apply (powerbi_predict_output constant_env 0%nat
           {[ 0%nat := table_with_pd ]} table_with_pd
           [[CFloat (Finite 0.9%R)]] [(Finite 0.8%R, Finite 0.2%R)]).
  - apply lookup_singleton_eq.
  - reflexivity.
  - reflexivity.
  - reflexivity.
Defined.

Lemma columns_assoc_set_in name c cs :
  name ∈ map fst cs -> map fst (assoc_set name c cs) = map fst cs.
Proof.
  induction cs as [|[n c0] cs IH]; cbn; intros Hin.
  - now apply elem_of_nil in Hin.
  - destruct (String.eqb n name) eqn:E; [reflexivity|].
    cbn. f_equal. apply IH.
    apply elem_of_cons in Hin as [Heq | Hin]; [|exact Hin].
    apply String.eqb_neq in E. congruence.
Qed.

(** Scoring a table that already has the three columns adds no column: the
    three are overwritten in place. *)
Theorem powerbi_predict_rescoring env dataset (h : gmap loc DataFrame) df Xv probs :
  h !! dataset = Some df ->
  scale_values env (values df) = ok Xv ->
  predict_proba (_model env) Xv = ok probs ->
  length probs = nrows df ->
  "PD" ∈ columns df -> "Behavior_Score" ∈ columns df ->
  "Risk_Category" ∈ columns df ->
  exists out h' df',
    powerbi_predict env dataset h = (ok out, h') /\
    h' !! out = Some df' /\
    columns df' = columns df.
Proof.
  intros Hd Hs Hp Hlen H1 H2 H3.
  destruct (powerbi_predict_spec env dataset h df Xv probs Hd Hs Hp Hlen)
    as (scores & Hsc & Hrun).
  cbn zeta in Hrun.
  eexists _, _, _. split; [exact Hrun|].
  split; [apply lookup_insert_eq|].
  unfold columns in *. unfold scored, setitem_series. cbn [cols].
  rewrite (columns_assoc_set_in "Risk_Category");
    rewrite (columns_assoc_set_in "Behavior_Score");
    rewrite ?(columns_assoc_set_in "PD"); auto.
Qed.
(** A classifier that answers with another number of rows than the table
    has makes the first column assignment raise [ValueError] (for a table
    with at least one row; pandas lets a table without rows take over the
    length of the assigned values). *)
Theorem powerbi_predict_wrong_row_count env dataset (h : gmap loc DataFrame)
        df Xv probs :
  h !! dataset = Some df ->
  scale_values env (values df) = ok Xv ->
  predict_proba (_model env) Xv = ok probs ->
  nrows df <> 0%nat ->
  length probs <> nrows df ->
  fst (powerbi_predict env dataset h) = raise ValueError.
Proof.
  intros Hd Hs Hp _ Hlen. unfold powerbi_predict.
  rewrite (py_bind_ok _ _ _ _ _ (df_copy_ok _ _ _ Hd)).
  set (h1 := <[fresh (dom h) := df]> h).
  assert (H1 : h1 !! dataset = Some df).
  { unfold h1. rewrite lookup_insert_ne; [exact Hd|].
    now apply fresh_not_in_heap with (d := df). }
  erewrite py_bind_ok by (apply py_read_ok, lookup_insert_eq).
  rewrite Hs. erewrite py_bind_ok by reflexivity.
  rewrite Hp. erewrite py_bind_ok by reflexivity.
  rewrite (py_bind_ok _ _ _ _ _ (df_copy_ok _ _ _ H1)).
  unfold py_bind at 1. unfold py_setitem_array at 1.
  rewrite lookup_insert_eq. unfold setitem_array, column_length.
  cbn [column_cells]. rewrite !length_map.
  apply Nat.eqb_neq in Hlen. now rewrite Hlen.
Qed.

Lemma powerbi_predict_wrong_row_count_witness :
  fst (powerbi_predict short_env 0%nat {[ 0%nat := table_with_pd ]})
  = raise ValueError.
Proof.
  apply (powerbi_predict_wrong_row_count short_env 0%nat
           {[ 0%nat := table_with_pd ]} table_with_pd
           [[CFloat (Finite 0.9%R)]] []).
  - apply lookup_singleton_eq.
  - reflexivity.
  - reflexivity.
  - discriminate.
  - discriminate.
Defined.

Lemma powerbi_predict_rescoring_witness :
  exists out h' df',
    powerbi_predict constant_env 0%nat {[ 0%nat := table_scored ]}
    = (ok out, h') /\
    h' !! out = Some df' /\
    columns df' = columns table_scored.
Proof.
  apply (powerbi_predict_rescoring constant_env 0%nat
           {[ 0%nat := table_scored ]} table_scored
           [[CFloat (Finite 0.9%R); CFloat (Finite 620%R); CStr "Medium"]]
           [(Finite 0.8%R, Finite 0.2%R)]).
  - apply lookup_singleton_eq.
  - reflexivity.
  - reflexivity.
  - reflexivity.
  - cbn. rewrite !elem_of_cons. tauto.
  - cbn. rewrite !elem_of_cons. tauto.
  - cbn. rewrite !elem_of_cons. tauto.
Defined.
End ScoringPassMore.

(** ** More on start-up *)

Section StartupMore.
Context (load_classifier : list Byte.byte -> option Classifier)
        (load_scaler : list Byte.byte -> option Scaler).

(** Start-up succeeds exactly when the model file exists and loads and the
    scaler file is absent or loads; a scaler file that is present but does
    not load makes start-up fail. *)
Theorem startup_succeeds_iff (fs : gmap string (list Byte.byte)) (env : Env) :
  (startup load_classifier load_scaler fs = ok env <->
   exists bytes,
     fs !! PowerBI.MODEL_FILE = Some bytes /\
     load_classifier bytes = Some (_model env) /\
     match fs !! PowerBI.SCALER_FILE with
     | Some sbytes =>
         exists sc, load_scaler sbytes = Some sc /\ _scaler env = Some sc
     | None => _scaler env = None
     end) /\
  (forall bytes m sbytes,
      fs !! PowerBI.MODEL_FILE = Some bytes ->
      load_classifier bytes = Some m ->
      fs !! PowerBI.SCALER_FILE = Some sbytes ->
      load_scaler sbytes = None ->
      startup load_classifier load_scaler fs = raise UnpicklingError).
Proof.
  split.
  - unfold startup, joblib_load. split.
    + destruct (fs !! PowerBI.MODEL_FILE) as [bytes|]; [|discriminate].
      destruct (load_classifier bytes) as [m|] eqn:Hm; cbn; [|discriminate].
      destruct (fs !! PowerBI.SCALER_FILE) as [sbytes|]; cbn.
      * destruct (load_scaler sbytes) as [sc|] eqn:Hsc; cbn; [|discriminate].
        intros [= <-]. exists bytes. cbn.
        split; [reflexivity|]. split; [exact Hm|]. now exists sc.
      * intros [= <-]. exists bytes. cbn. now repeat split.
    + intros (bytes & -> & Hm & Hsc). rewrite Hm. cbn.
      destruct env as [m s]. cbn in *.
      destruct (fs !! PowerBI.SCALER_FILE) as [sbytes|]; cbn.
      * destruct Hsc as (sc & -> & ->). reflexivity.
      * now subst s.
  - intros bytes m sbytes Hm Hl Hs Hls. unfold startup, joblib_load.
    now rewrite Hm, Hl, Hs, Hls.
Qed.
End StartupMore.

(** ** Failure and completion of a dashboard run *)

Section DashboardMore.
Import Dashboard Float.
Open Scope R_scope.

Lemma calculate_behavior_score_raises (x : np_float) :
  (x = Finite 1 ->
   calculate_behavior_score x = raise ZeroDivisionError) /\
  (x <> Finite 1 -> exists sc, calculate_behavior_score x = ok sc).
Proof.
  split.
  - intros ->. unfold calculate_behavior_score, odds_of. cbn.
    float_dec. reflexivity.
  - intros Hx. unfold calculate_behavior_score, odds_of.
    destruct x as [p| | |]; cbn; try (now eexists).
    destruct (Req_dec_T (1 + - p) 0) as [E|E]; cbn; [|now eexists].
    exfalso. apply Hx. f_equal. lra.
Qed.

Lemma np_float_eq_one_dec (x : np_float) : {x = Finite 1} + {x <> Finite 1}.
Proof.
  destruct x as [p| | |]; try (right; discriminate).
  destruct (Req_dec_T p 1) as [-> | Hne]; [now left|].
  right. intros [= H]. contradiction.
Qed.

Lemma dash_scores_raise (pds : list np_float) :
  (Finite 1 ∈ pds ->
   mapM calculate_behavior_score pds = raise ZeroDivisionError) /\
  (Finite 1 ∉ pds -> exists scores, mapM calculate_behavior_score pds = ok scores).
Proof.
  induction pds as [|x pds [IHin IHout]]; cbn.
  - split; [intros H; now apply elem_of_nil in H | now eexists].
  - destruct (np_float_eq_one_dec x) as [-> | Hx].
    + split.
      * intros _.
        destruct (calculate_behavior_score_raises (Finite 1)) as [-> _];
          reflexivity.
      * intros Hn. exfalso. apply Hn. now left.
    + destruct (calculate_behavior_score_raises x) as [_ Hok].
      destruct (Hok Hx) as [sc ->]. cbn. split.
      * intros Hin. apply elem_of_cons in Hin as [Heq | Hin]; [congruence|].
        now rewrite (IHin Hin).
      * intros Hn. apply not_elem_of_cons in Hn as [_ Hn].
        destruct (IHout Hn) as [scores ->]. cbn. now eexists.
Qed.

Lemma score_table_raises_iff (df : DataFrame) (pds : list np_float) :
  getitem df "PD" = ok (Float64 pds) ->
  (score_table df = raise ZeroDivisionError <-> Finite 1 ∈ pds) /\
  (Finite 1 ∉ pds -> exists df', score_table df = ok df').
Proof.
  intros Hpd. destruct (dash_scores_raise pds) as [Hin Hout]. split.
  - split.
    + intros Hraise.
      destruct (Classical_Prop.classic (Finite 1 ∈ pds)) as [H | H]; [exact H|].
      destruct (Hout H) as [scores Hsc].
      rewrite (score_table_ok df pds scores Hpd Hsc) in Hraise. discriminate.
    + intros H. unfold score_table. rewrite Hpd. cbn [rbind ok].
      rewrite series_floats_float64. cbn [rbind ok]. now rewrite (Hin H).
  - intros H. destruct (Hout H) as [scores Hsc].
    eexists. exact (score_table_ok df pds scores Hpd Hsc).
Qed.

(** One row with PD = 1 makes the scoring of the whole table fail with
    [ZeroDivisionError]; without such a row a float column is always
    scored. *)
Theorem score_table_zero_division (df : DataFrame) (pds : list np_float) :
  getitem df "PD" = ok (Float64 pds) ->
  (score_table df = raise ZeroDivisionError <-> Finite 1 ∈ pds) /\
  (Finite 1 ∉ pds -> exists df', score_table df = ok df').
Proof. exact (score_table_raises_iff df pds). Qed.

Lemma app_bind_Forall {A B} (P : ui -> Prop) (m : App A) (f : A -> App B) :
  Forall P (fst m) -> (forall a, Forall P (fst (f a))) ->
  Forall P (fst (app_bind m f)).
Proof.
  destruct m as [out [e|a]]; cbn; intros Hm Hf; [exact Hm|].
  specialize (Hf a). destruct (f a) as [out' r]. cbn in *.
  apply Forall_app. now split.
Qed.

Lemma app_lift_Forall {A} (P : ui -> Prop) (r : result A) :
  Forall P (fst (app_lift r)).
Proof. destruct r; constructor. Qed.

Lemma app_iter_Forall {A} (P : ui -> Prop) (f : A -> App unit) l :
  (forall x, Forall P (fst (f x))) -> Forall P (fst (app_iter f l)).
Proof.
  intros Hf. induction l as [|x l IH]; cbn; [constructor|].
  apply app_bind_Forall; [apply Hf | intros _; exact IH].
Qed.

Lemma sidebar_renders_sidebar_widgets s df :
  Forall sidebar_widget (fst (sidebar s df)).
Proof.
  unfold sidebar, sidebar_form, sidebar_predict.
  repeat (apply app_bind_Forall; [|intros ?]);
    try apply app_lift_Forall;
    try (repeat constructor; fail).
  - apply app_iter_Forall. intros x.
    destruct (is_numeric (snd x)); repeat constructor.
  - destruct (predict_clicked s); [|constructor].
    repeat (apply app_bind_Forall; [|intros ?]);
      try apply app_lift_Forall; repeat constructor.
Qed.

Lemma getitem_ok_in_columns df name c :
  getitem df name = ok c -> name ∈ columns df.
Proof.
  unfold getitem, columns. induction (cols df) as [|[n c0] cs IH]; cbn.
  - discriminate.
  - destruct (String.eqb n name) eqn:E.
    + apply String.eqb_eq in E. subst n. intros _. now left.
    + intros H. right. now apply IH.
Qed.

Lemma score_table_zero_division_witness :
  (score_table table_with_pd_one = raise ZeroDivisionError
   <-> Finite 1 ∈ [Finite 0.3; Finite 1]) /\
  (Finite 1 ∉ [Finite 0.3; Finite 1] ->
   exists df', score_table table_with_pd_one = ok df').
Proof.
  apply (score_table_zero_division table_with_pd_one [Finite 0.3; Finite 1]).
  reflexivity.
Defined.

(** A PD of exactly 1 anywhere in the column ends the run with
    [ZeroDivisionError] once the sidebar is rendered: no metric, no chart,
    no download and no footer. *)
Theorem dashboard_aborts_on_pd_one (s : Session) df pds :
  uploaded_file s = Some df ->
  getitem df "PD" = ok (Float64 pds) ->
  Finite 1 ∈ pds ->
  exists side,
    dashboard s
    = (([st_set_page_config; st_header; st_file_uploader; st_sidebar_header]
          ++ side)%list, inl (Raised ZeroDivisionError)) /\
    Forall sidebar_widget side.
Proof.
  intros Hup Hpd Hone.
  rewrite (dashboard_guard_passes s df Hup (getitem_ok_in_columns _ _ _ Hpd)).
  pose proof (sidebar_completes s df pds Hpd) as Hside.
  pose proof (sidebar_renders_sidebar_widgets s df) as Hw.
  destruct (score_table_raises_iff df pds Hpd) as [[_ Hraise] _].
  destruct (sidebar s df) as [side r]. cbn in Hside, Hw. subst r.
  exists side. split; [|exact Hw].
  unfold main_section. rewrite (Hraise Hone). cbn.
  now rewrite app_nil_r.
Qed.

Lemma dashboard_aborts_on_pd_one_witness :
  exists side,
    dashboard (session_of table_with_pd_one)
    = (([st_set_page_config; st_header; st_file_uploader; st_sidebar_header]
          ++ side)%list, inl (Raised ZeroDivisionError)) /\
    Forall sidebar_widget side.
Proof.
  apply (dashboard_aborts_on_pd_one (session_of table_with_pd_one)
           table_with_pd_one [Finite 0.3; Finite 1]).
  - reflexivity.
  - reflexivity.
  - right. left.
Defined.

Lemma app_bind_assoc {A B C} (m : App A) (f : A -> App B) (g : B -> App C) :
  app_bind (app_bind m f) g = app_bind m (fun a => app_bind (f a) g).
Proof.
  destruct m as [out [e|a]]; cbn; [reflexivity|].
  destruct (f a) as [out' [e|b]]; cbn; [reflexivity|].
  destruct (g b) as [out'' r]. now rewrite app_assoc.
Qed.

Lemma main_section_no_footer df :
  Forall (fun w => w <> st_footer) (fst (main_section df)).
Proof.
  unfold main_section.
  repeat (apply app_bind_Forall; [|intros ?]);
    try apply app_lift_Forall; repeat constructor; discriminate.
Qed.

(** The footer is rendered exactly when the run reaches its end. *)
Theorem footer_iff_completed (s : Session) :
  st_footer ∈ fst (dashboard s) <-> snd (dashboard s) = inr tt.
Proof.
  unfold dashboard. rewrite <- app_bind_assoc.
  set (m := app_bind preamble _).
  assert (Hm : Forall (fun w => w <> st_footer) (fst m)).
  { unfold m. apply app_bind_Forall; [repeat constructor; discriminate|].
    intros _. destruct (uploaded_file s) as [df|];
      [|repeat constructor; discriminate].
    apply app_bind_Forall.
    { unfold pd_column_guard.
      destruct (bool_decide _); repeat constructor; discriminate. }
    intros _. apply app_bind_Forall; [|intros _; apply main_section_no_footer].
    eapply Forall_impl; [apply sidebar_renders_sidebar_widgets|].
    intros w Hw ->. exact Hw. }
  destruct m as [out [e|[]]]; cbn in *.
  - split; [|discriminate]. intros Hin. exfalso.
    rewrite Forall_forall in Hm. now apply (Hm st_footer Hin).
  - split; [reflexivity|]. intros _. apply elem_of_app. right. now left.
Qed.
End DashboardMore.

(** ** The dashboard's scored table, KPIs and sidebar prediction *)

Section DashboardTable.
Import Dashboard Float.
Open Scope R_scope.

Lemma score_table_inv df df' :
  score_table df = ok df' ->
  exists pd_col pds scores,
    getitem df "PD" = ok pd_col /\
    series_floats pd_col = ok pds /\
    mapM calculate_behavior_score pds = ok scores /\
    df' = setitem_series
            (setitem_series df "Behavior_Score" (Float64 scores))
            "Risk_Category" (Object (map risk_category scores)).
Proof.
  unfold score_table.
  destruct (getitem df "PD") as [|pd_col] eqn:Hpd; [discriminate|].
  cbn [rbind].
  destruct (series_floats pd_col) as [|pds] eqn:Hfl; [discriminate|].
  cbn [rbind].
  destruct (mapM calculate_behavior_score pds) as [|scores] eqn:Hsc;
    [discriminate|].
  cbn [rbind]. unfold getitem at 1. cbn [cols setitem_series].
  rewrite assoc_get_set_eq. cbn [rbind ok].
  rewrite series_floats_float64. cbn [rbind ok]. intros [= <-].
  now exists pd_col, pds, scores.
Qed.

(** The dashboard's scoring keeps the row count and every column other than
    the two it assigns, the PD column included; the category column is the
    label of the score column, row by row. *)
Theorem score_table_keeps_columns df df' :
  score_table df = ok df' ->
  nrows df' = nrows df /\
  (forall n, n <> "Behavior_Score" -> n <> "Risk_Category" ->
             getitem df' n = getitem df n) /\
  exists pd_col pds scores,
    getitem df "PD" = ok pd_col /\
    series_floats pd_col = ok pds /\
    mapM calculate_behavior_score pds = ok scores /\
    length scores = length pds /\
    getitem df' "Behavior_Score" = ok (Float64 scores) /\
    getitem df' "Risk_Category" = ok (Object (map risk_category scores)).
Proof.
  intros H. destruct (score_table_inv df df' H)
    as (pd_col & pds & scores & Hpd & Hfl & Hsc & ->).
  split; [reflexivity|]. split.
  - intros n H1 H2. unfold getitem, setitem_series. cbn [cols].
    now rewrite !assoc_get_set_ne by congruence.
  - exists pd_col, pds, scores. repeat (split; [assumption|]).
    split; [exact (mapM_length _ _ _ Hsc)|]. split.
    + unfold getitem, setitem_series. cbn [cols].
      rewrite assoc_get_set_ne by discriminate. now rewrite assoc_get_set_eq.
    + unfold getitem, setitem_series. cbn [cols].
      now rewrite assoc_get_set_eq.
Qed.

Lemma score_table_keeps_columns_witness :
  exists df',
    score_table table_with_pd = ok df' /\
    nrows df' = nrows table_with_pd /\
    (forall n, n <> "Behavior_Score" -> n <> "Risk_Category" ->
               getitem df' n = getitem table_with_pd n) /\
    exists pd_col pds scores,
      getitem table_with_pd "PD" = ok pd_col /\
      series_floats pd_col = ok pds /\
      mapM calculate_behavior_score pds = ok scores /\
      length scores = length pds /\
      getitem df' "Behavior_Score" = ok (Float64 scores) /\
      getitem df' "Risk_Category" = ok (Object (map risk_category scores)).
Proof.
  destruct (score_table_raises_iff table_with_pd [Finite 0.9] eq_refl)
    as [_ Hok].
  destruct Hok as [df' Hst].
  { intros Hin. apply list_elem_of_singleton in Hin.
    injection Hin as Hin. lra. }
  exists df'. split; [exact Hst|].
  exact (score_table_keeps_columns table_with_pd df' Hst).
Defined.

Lemma count_high_risk_scores (scores : list np_float) :
  count_high_risk (Object (map risk_category scores))
  = length (List.filter (fun sc => ltb sc (Finite 580)) scores).
Proof.
  cbn. induction scores as [|sc scores IH]; cbn; [reflexivity|].
  unfold risk_category at 1.
  destruct (ltb sc (Finite 580)); cbn; [now rewrite IH|].
  destruct (ltb sc (Finite 700)); cbn; exact IH.
Qed.

(** A run of the main section on a float PD column whose scores are all
    computed: the three KPIs are the mean PD, the mean score and the number
    of rows whose score is below 580, and the download carries the scored
    table. *)
Theorem main_section_renders df pds scores :
  getitem df "PD" = ok (Float64 pds) ->
  mapM calculate_behavior_score pds = ok scores ->
  exists df',
    score_table df = ok df' /\
    main_section df
    = ([st_metric "Average PD" (nanmean pds);
        st_metric "Average Behavior Score" (nanmean scores);
        st_metric_count "High Risk Customers"
          (length (List.filter (fun sc => ltb sc (Finite 580)) scores));
        st_histogram "PD Distribution" "PD";
        st_histogram "Behavior Score Distribution (300–900)" "Behavior_Score";
        st_scatter "PD vs Behavior Score" "PD" "Behavior_Score" "Risk_Category";
        st_download_button df'], inr tt).
Proof.
  intros Hpd Hsc.
  destruct (main_section_completes df pds scores Hpd Hsc)
    as (df' & out & Hst & _ & _ & H1 & H2 & H3).
  exists df'. split; [exact Hst|].
  unfold main_section. rewrite Hst. cbn -[getitem series_mean].
  rewrite H1, H2, H3. cbn [rbind ok]. unfold series_mean.
  rewrite !series_floats_float64. cbn -[count_high_risk].
  now rewrite count_high_risk_scores.
Qed.

Lemma main_section_renders_witness :
  exists scores df',
    mapM calculate_behavior_score [Finite 0.9] = ok scores /\
    score_table table_with_pd = ok df' /\
    main_section table_with_pd
    = ([st_metric "Average PD" (nanmean [Finite 0.9]);
        st_metric "Average Behavior Score" (nanmean scores);
        st_metric_count "High Risk Customers"
          (length (List.filter (fun sc => ltb sc (Finite 580)) scores));
        st_histogram "PD Distribution" "PD";
        st_histogram "Behavior Score Distribution (300–900)" "Behavior_Score";
        st_scatter "PD vs Behavior Score" "PD" "Behavior_Score" "Risk_Category";
        st_download_button df'], inr tt).
Proof.
  destruct (dash_scores_total [Finite 0.9]) as [scores Hsc].
  { constructor; [|constructor]. exists 0.9. split; [reflexivity | lra]. }
  destruct (main_section_renders table_with_pd [Finite 0.9] scores eq_refl Hsc)
    as (df' & Hst & Hrun).
  now exists scores, df'.
Defined.

(** [99^3 < 2^20]: [log2 99 < 20/3]. *)
Lemma ln_99_bound : ln 99 < 4.63.
Proof.
  assert (H : 3 * ln 99 < 20 * ln 2).
  { apply (ln_pow_lt 99 2 3 20); [lia .. | now vm_compute]. }
  pose proof ln_2_enclosure as [_ Hh2].
  rewrite pow_2_60, fixed_eq in Hh2.
  assert (ln 2 < 0.6932) by lra.
  lra.
Qed.

Lemma sidebar_clamp_cases (x : np_float) :
  (sidebar_clamp x = NaN /\ x = NaN) \/
  exists c, sidebar_clamp x = Finite c /\ 0.01 <= c <= 0.99.
Proof.
  destruct x as [p| | |].
  - right. exists (Rmax (Rmin p 0.99) 0.01).
    split; [apply dash_sidebar_clamp_finite|].
    unfold Rmax, Rmin. destruct (Rle_dec p 0.99); float_dec.
  - right. exists 0.99. split; [|lra].
    unfold sidebar_clamp, py_max, py_min, gtb, ltb. float_dec. reflexivity.
  - right. exists 0.01. split; [reflexivity | lra].
  - left. now split.
Qed.

Lemma dash_score_sidebar_range (c : R) :
  0.01 <= c <= 0.99 ->
  550 <= Dashboard.A - Dashboard.B * ln (c / (1 - c)) <= 825.
Proof.
  intros Hc.
  assert (Hlo : ln (0.01 / (1 - 0.01)) = - ln 99).
  { rewrite <- ln_Rinv by lra. f_equal. lra. }
  assert (Hhi : ln (0.99 / (1 - 0.99)) = ln 99).
  { f_equal. lra. }
  assert (H1 : - ln 99 <= ln (c / (1 - c))).
  { rewrite <- Hlo. destruct Hc as [[Hl | <-] Hu]; [|lra].
    left. apply log_odds_increasing; lra. }
  assert (H2 : ln (c / (1 - c)) <= ln 99).
  { rewrite <- Hhi. destruct Hc as [Hl [Hu | ->]]; [|lra].
    left. apply log_odds_increasing; lra. }
  pose proof ln_99_bound. unfold Dashboard.A, Dashboard.B. nra.
Qed.

(** With a float PD column the sidebar prediction never fails: it shows a
    PD clamped to [0.01, 0.99] with a score between 550 and 825 and its
    label, unless the predicted PD is NaN, which is shown with a NaN score. *)
Theorem sidebar_prediction (s : Session) df pds :
  getitem df "PD" = ok (Float64 pds) ->
  predict_clicked s = true ->
  exists form pd_pred sc,
    sidebar s df
    = ((form ++ [st_sidebar_success pd_pred sc (risk_category sc)])%list,
       inr tt) /\
    calculate_behavior_score pd_pred = ok sc /\
    ((pd_pred = NaN /\ sc = NaN) \/
     exists c v, pd_pred = Finite c /\ 0.01 <= c <= 0.99 /\
                 sc = Finite v /\ 550 <= v <= 825).
Proof.
  intros Hpd Hclick. unfold sidebar.
  assert (Hform : snd (sidebar_form df) = inr tt).
  { unfold sidebar_form. cbn.
    induction (feature_cols df) as [|nc l IH]; [reflexivity|].
    cbn. destruct (is_numeric (snd nc)); cbn;
      destruct (app_iter _ l) as [o r]; cbn in *; now subst. }
  destruct (sidebar_form df) as [o1 r1]. cbn in Hform. subst r1.
  rewrite Hclick. unfold sidebar_predict. rewrite Hpd. cbn [rbind ok].
  unfold series_mean at 1. rewrite series_floats_float64.
  cbn [rbind ok app_lift app_bind].
  destruct (adjust_pd_ok (number_input s)
              (List.filter (fun nc => is_numeric (snd nc)) (feature_cols df))
              (nanmean pds)) as [r Hr].
  { intros nc Hin. now apply filter_In in Hin. }
  rewrite Hr. cbn [app_lift ok app_bind].
  destruct (sidebar_clamp_cases r) as [[Hc ->] | (c & Hc & Hrange)].
  - exists (o1 ++ [st_sidebar_button])%list, NaN, NaN.
    rewrite Hc. cbn. rewrite <- app_assoc.
    split; [reflexivity|]. split; [reflexivity|]. now left.
  - pose proof (dash_score_finite c ltac:(lra)) as Hscore.
    eexists (o1 ++ [st_sidebar_button])%list, (Finite c), _.
    rewrite Hc, Hscore. cbn. rewrite <- app_assoc.
    split; [reflexivity|]. split; [reflexivity|]. right.
    eexists c, _. split; [reflexivity|]. split; [exact Hrange|].
    split; [reflexivity|]. now apply dash_score_sidebar_range.
Qed.

Lemma sidebar_prediction_witness :
  exists form pd_pred sc,
    sidebar (session_of table_with_pd_one) table_with_pd_one
    = ((form ++ [st_sidebar_success pd_pred sc (risk_category sc)])%list,
       inr tt) /\
    calculate_behavior_score pd_pred = ok sc /\
    ((pd_pred = NaN /\ sc = NaN) \/
     exists c v, pd_pred = Finite c /\ 0.01 <= c <= 0.99 /\
                 sc = Finite v /\ 550 <= v <= 825).
Proof.
  apply (sidebar_prediction (session_of table_with_pd_one) table_with_pd_one
           [Finite 0.3; Finite 1]); reflexivity.
Defined.
End DashboardTable.

(** ** Properties that survive rounding: separation, doubling, reference point *)

Section Robust.
Open Scope R_scope.
Import Float.

Lemma Rabs_le_bounds (a b : R) : Rabs a <= b -> - b <= a <= b.
Proof.
  intros H. pose proof (Rle_abs a). pose proof (Rle_abs (- a)) as Hn.
  rewrite Rabs_Ropp in Hn. lra.
Qed.

Lemma pbi_B_bounds : 28 < PowerBI.B < 29.
Proof.
  pose proof ln_2_enclosure as [Hl2 Hh2].
  rewrite pow_2_60, fixed_eq in Hl2, Hh2. rewrite Rinv_div in Hl2.
  assert (H1 : 0.69 < ln 2) by lra.
  assert (H2 : ln 2 < 0.7) by lra.
  unfold PowerBI.B, PowerBI.PDO. split.
  - apply lt_div_ln2. lra.
  - apply div_ln2_lt. lra.
Qed.

(** [ln (y / x)] is at least [1 - x / y]. *)
Lemma ln_ratio_lower (x y : R) :
  0 < x -> 0 < y -> 1 - x / y <= ln y - ln x.
Proof.
  intros Hx Hy.
  assert (H : 0 < y / x) by (apply Rdiv_lt_0_compat; assumption).
  pose proof (ln_ge_inv (y / x) H) as Hi.
  unfold Rdiv in Hi at 2. rewrite ln_mult, ln_Rinv in Hi;
    [|assumption|assumption|now apply Rinv_0_lt_compat].
  rewrite Rinv_div in Hi. lra.
Qed.

Lemma ln_ratio_upper (x y : R) :
  0 < x -> 0 < y -> ln y - ln x <= y / x - 1.
Proof.
  intros Hx Hy.
  assert (H : 0 < y / x) by (apply Rdiv_lt_0_compat; assumption).
  pose proof (ln_le_pred (y / x) H) as Hi.
  unfold Rdiv in Hi at 1. rewrite ln_mult, ln_Rinv in Hi;
    [|assumption|assumption|now apply Rinv_0_lt_compat].
  unfold Rdiv. lra.
Qed.

(** The log-odds grow at least twice as fast as the probability. *)
Lemma log_odds_growth (p1 p2 : R) :
  0 < p1 -> p1 <= p2 -> p2 < 1 ->
  2 * (p2 - p1) <= ln (p2 / (1 - p2)) - ln (p1 / (1 - p1)).
Proof.
  intros H0 Hle H1.
  assert (Ha : 1 - p1 / p2 <= ln p2 - ln p1) by (apply ln_ratio_lower; lra).
  assert (Hb : 1 - (1 - p2) / (1 - p1) <= ln (1 - p1) - ln (1 - p2))
    by (apply ln_ratio_lower; lra).
  assert (Hs : forall p, 0 < p < 1 -> ln (p / (1 - p)) = ln p - ln (1 - p)).
  { intros p Hp. unfold Rdiv. rewrite ln_mult, ln_Rinv; [lra|lra|lra|].
    apply Rinv_0_lt_compat. lra. }
  rewrite !Hs by lra.
  assert (Hc : p2 - p1 <= 1 - p1 / p2).
  { replace (1 - p1 / p2) with ((p2 - p1) / p2) by (field; lra).
    apply Rmult_le_reg_r with p2; [lra|].
    unfold Rdiv. rewrite Rmult_assoc, Rinv_l by lra. nra. }
  assert (Hd : p2 - p1 <= 1 - (1 - p2) / (1 - p1)).
  { replace (1 - (1 - p2) / (1 - p1)) with ((p2 - p1) / (1 - p1))
      by (field; lra).
    apply Rmult_le_reg_r with (1 - p1); [lra|].
    unfold Rdiv. rewrite Rmult_assoc, Rinv_l by lra. nra. }
  lra.
Qed.

(** Probabilities that are at least [1e-9] apart get scores that are apart:
    the score drops by at least 50 points per unit of PD. *)
Theorem score_drop_lower_bound (p1 p2 : R) :
  0 < p1 -> p1 + 1 / 10 ^ 9 <= p2 -> p2 < 1 ->
  (exists s1 s2,
      Dashboard.calculate_behavior_score (Finite p1) = ok (Finite s1) /\
      Dashboard.calculate_behavior_score (Finite p2) = ok (Finite s2) /\
      50 * (p2 - p1) <= s1 - s2) /\
  (0.001 <= p1 -> p2 <= 0.999 ->
   exists s1 s2,
     PowerBI.compute_score (Finite p1) = ok (Finite s1) /\
     PowerBI.compute_score (Finite p2) = ok (Finite s2) /\
     50 * (p2 - p1) <= s1 - s2).
Proof.
  intros H0 Hsep H1.
  assert (Hle : p1 <= p2) by lra.
  pose proof (log_odds_growth p1 p2 H0 Hle H1) as Hg.
  split.
  - eexists _, _. split; [apply dash_score_finite; lra|].
    split; [apply dash_score_finite; lra|].
    unfold Dashboard.A, Dashboard.B. nra.
  - intros Hl Hu. eexists _, _.
    split; [apply pbi_score_clamped; [apply pbi_clamp_id|]; lra|].
    split; [apply pbi_score_clamped; [apply pbi_clamp_id|]; lra|].
    pose proof pbi_B_bounds. nra.
Qed.

Lemma score_drop_lower_bound_witness :
  (exists s1 s2,
      Dashboard.calculate_behavior_score (Finite 0.25) = ok (Finite s1) /\
      Dashboard.calculate_behavior_score (Finite 0.5) = ok (Finite s2) /\
      50 * (0.5 - 0.25) <= s1 - s2) /\
  (exists s1 s2,
     PowerBI.compute_score (Finite 0.25) = ok (Finite s1) /\
     PowerBI.compute_score (Finite 0.5) = ok (Finite s2) /\
     50 * (0.5 - 0.25) <= s1 - s2).
Proof.
  destruct (score_drop_lower_bound 0.25 0.5) as [Hd Hb]; try lra.
  split; [exact Hd | apply Hb; lra].
Defined.

(** Doubling the odds, to within a relative [1e-9], lowers the BI script's
    score by [PDO] = 20 points, to within [1e-7]. *)
Theorem pbi_doubling_odds (p q : R) :
  0.001 <= p <= 0.999 -> 0.001 <= q <= 0.999 ->
  Rabs (q / (1 - q) - 2 * (p / (1 - p))) <= p / (1 - p) / 10 ^ 9 ->
  exists s t,
    PowerBI.compute_score (Finite p) = ok (Finite s) /\
    PowerBI.compute_score (Finite q) = ok (Finite t) /\
    Rabs (s - t - PowerBI.PDO) <= 1 / 10 ^ 7.
Proof.
  intros Hp Hq Hodds.
  eexists _, _.
  split; [apply pbi_score_clamped; [apply pbi_clamp_id|]; lra|].
  split; [apply pbi_score_clamped; [apply pbi_clamp_id|]; lra|].
  set (a := p / (1 - p)) in *. set (b := q / (1 - q)) in *.
  assert (Ha : 0 < a) by (apply odds_pos; lra).
  assert (Hb : 0 < b) by (apply odds_pos; lra).
  apply Rabs_le_bounds in Hodds as [Hlo Hhi].
  assert (H2a : 0 < 2 * a) by lra.
  pose proof (ln_ratio_lower (2 * a) b H2a Hb) as Hl.
  pose proof (ln_ratio_upper (2 * a) b H2a Hb) as Hu.
  rewrite ln_mult in Hl, Hu by lra.
  assert (Hr1 : b / (2 * a) - 1 <= 1 / 10 ^ 9).
  { apply Rmult_le_reg_r with (2 * a); [exact H2a|].
    replace ((b / (2 * a) - 1) * (2 * a)) with (b - 2 * a) by (field; lra).
    unfold Rdiv in Hhi. lra. }
  assert (Hr2 : - (2 / 10 ^ 9) <= 1 - 2 * a / b).
  { assert (Hb' : 2 * a * (1 - 1 / 10 ^ 9) <= b) by (unfold Rdiv in Hlo; lra).
    apply Rmult_le_reg_r with b; [exact Hb|].
    replace ((1 - 2 * a / b) * b) with (b - 2 * a) by (field; lra).
    nra. }
  pose proof pbi_B_bounds as HB.
  assert (HB2 : PowerBI.B * ln 2 = 20).
  { unfold PowerBI.B, PowerBI.PDO. field. pose proof ln_2_pos. lra. }
  unfold PowerBI.PDO.
  set (d := ln b - ln a - ln 2).
  replace (PowerBI.A - PowerBI.B * ln a - (PowerBI.A - PowerBI.B * ln b) - 20)
    with (PowerBI.B * d) by (unfold d; lra).
  assert (Hd : - (2 / 10 ^ 9) <= d <= 1 / 10 ^ 9) by (unfold d; lra).
  apply Rabs_le. nra.
Qed.

Lemma pbi_doubling_odds_witness :
  exists s t,
    PowerBI.compute_score (Finite (1 / 3)) = ok (Finite s) /\
    PowerBI.compute_score (Finite (1 / 2)) = ok (Finite t) /\
    Rabs (s - t - PowerBI.PDO) <= 1 / 10 ^ 7.
Proof.
  apply (pbi_doubling_odds (1 / 3) (1 / 2)); try lra.
  replace (1 / 2 / (1 - 1 / 2) - 2 * (1 / 3 / (1 - 1 / 3))) with 0 by lra.
  rewrite Rabs_R0. lra.
Defined.

Lemma log_odds_growth_upper (p1 p2 : R) :
  0 < p1 -> p1 <= p2 -> p2 < 1 ->
  ln (p2 / (1 - p2)) - ln (p1 / (1 - p1))
  <= (p2 - p1) / p1 + (p2 - p1) / (1 - p2).
Proof.
  intros H0 Hle H1.
  assert (Ha : ln p2 - ln p1 <= p2 / p1 - 1) by (apply ln_ratio_upper; lra).
  assert (Hb : ln (1 - p1) - ln (1 - p2) <= (1 - p1) / (1 - p2) - 1)
    by (apply ln_ratio_upper; lra).
  assert (Hs : forall p, 0 < p < 1 -> ln (p / (1 - p)) = ln p - ln (1 - p)).
  { intros p Hp. unfold Rdiv. rewrite ln_mult, ln_Rinv; [lra|lra|lra|].
    apply Rinv_0_lt_compat. lra. }
  rewrite !Hs by lra.
  replace ((p2 - p1) / p1) with (p2 / p1 - 1) by (field; lra).
  replace ((p2 - p1) / (1 - p2)) with ((1 - p1) / (1 - p2) - 1)
    by (field; lra).
  lra.
Qed.

(** A PD within [1e-9] of 20/21, where the odds are the reference odds
    [ODDS] = 20, scores the reference score [SCORE_REF] = 600 to within
    [1e-6]. *)
Theorem pbi_reference_point (p : R) :
  Rabs (p - 20 / 21) <= 1 / 10 ^ 9 ->
  exists s,
    PowerBI.compute_score (Finite p) = ok (Finite s) /\
    Rabs (s - PowerBI.SCORE_REF) <= 1 / 10 ^ 6.
Proof.
  intros Hp. apply Rabs_le_bounds in Hp as [Hlo Hhi].
  eexists. split; [apply pbi_score_clamped; [apply pbi_clamp_id|]; lra|].
  assert (H20 : ln (20 / 21 / (1 - 20 / 21)) = ln 20) by (f_equal; lra).
  pose proof pbi_B_bounds as HB.
  unfold PowerBI.A, PowerBI.SCORE_REF, PowerBI.ODDS.
  set (x := ln (p / (1 - p))).
  replace (600 + PowerBI.B * ln 20 - PowerBI.B * x - 600)
    with (PowerBI.B * (ln 20 - x)) by lra.
  assert (Hd : - (3 / 10 ^ 8) <= ln 20 - x <= 3 / 10 ^ 8).
  { unfold x. rewrite <- H20.
    destruct (Rle_dec p (20 / 21)) as [Hle | Hgt].
    - pose proof (log_odds_growth p (20 / 21) ltac:(lra) Hle ltac:(lra)) as Hg.
      pose proof (log_odds_growth_upper p (20 / 21) ltac:(lra) Hle ltac:(lra))
        as Hu.
      assert ((20 / 21 - p) / p <= 2 * (20 / 21 - p)).
      { apply Rmult_le_reg_r with p; [lra|].
        unfold Rdiv at 1. rewrite Rmult_assoc, Rinv_l by lra. nra. }
      replace ((20 / 21 - p) / (1 - 20 / 21)) with (21 * (20 / 21 - p))
        in Hu by lra.
      lra.
    - assert (Hle : 20 / 21 <= p) by lra.
      pose proof (log_odds_growth (20 / 21) p ltac:(lra) Hle ltac:(lra)) as Hg.
      pose proof (log_odds_growth_upper (20 / 21) p ltac:(lra) Hle ltac:(lra))
        as Hu.
      assert ((p - 20 / 21) / (1 - p) <= 22 * (p - 20 / 21)).
      { apply Rmult_le_reg_r with (1 - p); [lra|].
        unfold Rdiv at 1. rewrite Rmult_assoc, Rinv_l by lra. nra. }
      replace ((p - 20 / 21) / (20 / 21)) with (21 / 20 * (p - 20 / 21))
        in Hu by lra.
      lra. }
  apply Rabs_le. nra.
Qed.

Lemma pbi_reference_point_witness :
  exists s,
    PowerBI.compute_score (Finite 0.9523809523809524) = ok (Finite s) /\
    Rabs (s - PowerBI.SCORE_REF) <= 1 / 10 ^ 6.
Proof.
  apply (pbi_reference_point 0.9523809523809524).
  apply Rabs_le. lra.
Defined.
End Robust.

(** ** The BI script's label by probability *)

Section Labels.
Open Scope R_scope.
Import Float.

(** The BI script's label as a function of the probability: "Low" up to
    0.384, "Medium" from 0.385 to 0.952, "High" from 0.953 (the cut points
    of the exact transform are 5/13 and 20/21). *)
Theorem pbi_label_by_pd (p : R) :
  exists s,
    PowerBI.compute_score (Finite p) = ok (Finite s) /\
    (p <= 0.384 -> PowerBI.risk_label (Finite s) = "Low") /\
    (0.385 <= p <= 0.952 -> PowerBI.risk_label (Finite s) = "Medium") /\
    (0.953 <= p -> PowerBI.risk_label (Finite s) = "High").
Proof.
  destruct (pbi_label_cut_points p) as (s & Hs & Hl & Hm & Hh).
  exists s. split; [exact Hs|].
  split; [intros H; apply Hl; lra|].
  split; [intros H; apply Hm; lra | intros H; apply Hh; lra].
Qed.
End Labels.

(** ** The clamp and the logarithm's argument: the dashboard's table path *)

Section MissingClamp.
Open Scope R_scope.
Import Float.

(** C3: the BI script's [compute_score] clamps every input to
    [0.001, 0.999] before it computes the odds, so the odds are a finite
    positive number and a score is returned.  The dashboard's
    [calculate_behavior_score] does not clamp, and the table path calls it
    on the uploaded values: at PD = 1 the division raises
    [ZeroDivisionError], which ends the scoring of the table, and at PD = 0
    the logarithm is taken at zero and the score is plus infinity. *)
Theorem C3_log_odds_guard :
  (forall x,
      (exists c, PowerBI.clamp x = Finite c /\ 0.001 <= c <= 0.999) /\
      log_odds_defined (PowerBI.odds_of x) /\
      (exists s, PowerBI.compute_score x = ok (Finite s))) /\
  Dashboard.odds_of (Finite 1) = raise ZeroDivisionError /\
  Dashboard.calculate_behavior_score (Finite 1) = raise ZeroDivisionError /\
  score_table table_with_pd_one = raise ZeroDivisionError /\
  Dashboard.odds_of (Finite 0) = ok (Finite 0) /\
  ~ log_odds_defined (Dashboard.odds_of (Finite 0)) /\
  Dashboard.calculate_behavior_score (Finite 0) = ok PosInf.
Proof.
  assert (H1 : Dashboard.odds_of (Finite 1) = raise ZeroDivisionError).
  { unfold Dashboard.odds_of. cbn. float_dec. reflexivity. }
  assert (H0 : Dashboard.odds_of (Finite 0) = ok (Finite 0)).
  { rewrite dash_odds_finite by lra. do 2 f_equal. lra. }
  split.
  { intros x. destruct (pbi_clamp_range x) as (c & Hc & Hr).
    split; [now exists c|]. split.
    - exists (c / (1 - c)). split; [now apply pbi_odds_of_clamped|].
      apply odds_pos. lra.
    - eexists. now apply pbi_score_clamped with (c := c). }
  split; [exact H1|]. split.
  { unfold Dashboard.calculate_behavior_score. now rewrite H1. }
  split.
  { apply (score_table_raises_iff table_with_pd_one [Finite 0.3; Finite 1]);
      [reflexivity|]. right. left. }
  split; [exact H0|]. split.
  { rewrite H0. intros (r & Hr & Hpos). injection Hr as <-. lra. }
  unfold Dashboard.calculate_behavior_score. rewrite H0. cbn.
  float_dec. cbn. unfold scale_inf.
  pose proof dash_B_pos. float_dec. reflexivity.
Qed.
End MissingClamp.
